(** * StackSentinel Python client: a shallow embedding and its properties

    The development follows [StackSentinel/__init__.py]: the client
    ([StackSentinelClient]) that turns an exception into a report and posts
    it, and the WSGI middleware ([StackSentinelMiddleware]) that reports
    and re-raises.

    Python values are trees ([pyval]); the one object that the code
    mutates and shares with its caller, the [state] dictionary, lives in a
    store and is passed by address.  Exceptions are a result type, the
    store and the observable events are threaded through a state monad
    that keeps the store when a call raises. *)

From Stdlib Require Import ZArith Lia.
From stdpp Require Import base option list strings pretty.

Open Scope Z_scope.

#[local] Set Warnings "-register-all".

(** ** Python values *)

(** Dictionary keys: the hashable kinds that occur in reports.  [KStr],
    [KInt] and [KNone] are keys the [json] encoder accepts; [KTuple]
    stands for the hashable keys it rejects. *)
Inductive pykey : Type :=
  | KStr (s : string)
  | KInt (z : Z)
  | KNone
  | KTuple (l : list Z).

(** An object outside the kinds [json] knows: its class name and what
    [repr] does on it ([None]: [repr] raises). *)
Record pyobj : Type := PyObj {
  o_class : string;
  o_repr : option string
}.

(** Values are trees.  A list or dictionary that holds itself, directly
    or through others, is unrolled down to the place where it comes back:
    [PCircular] stands for a container met again inside itself. *)
Inductive pyval : Type :=
  | PNone
  | PBool (b : bool)
  | PInt (z : Z)
  | PStr (s : string)
  | PList (l : list pyval)
  | PTuple (l : list pyval)
  | PDict (d : list (pykey * pyval))
  | PObj (o : pyobj)
  | PCircular.

(** A dictionary keeps insertion order; keys are unique in dictionaries
    built by [dict_set]. *)
Abbreviation pydict := (list (pykey * pyval)).

#[global] Instance pykey_eq_dec : EqDecision pykey.
Proof. solve_decision. Defined.

Fixpoint dict_get (k : pykey) (d : pydict) : option pyval :=
  match d with
  | [] => None
  | (k', v) :: d' => if decide (k = k') then Some v else dict_get k d'
  end.

(** [k in d] *)
Definition dict_mem (k : pykey) (d : pydict) : bool :=
  match dict_get k d with Some _ => true | None => false end.

(** [d[k] = v]: replaces the value of an existing key, appends a new one. *)
Fixpoint dict_set (k : pykey) (v : pyval) (d : pydict) : pydict :=
  match d with
  | [] => [(k, v)]
  | (k', v') :: d' =>
      if decide (k = k') then (k', v) :: d' else (k', v') :: dict_set k v d'
  end.

(** ** Exceptions *)

(** One entry of a traceback chain: [tb.tb_lineno], [co.co_filename],
    [co.co_name] of [tb.tb_frame.f_code]. *)
Record tb_entry : Type := TbEntry {
  tb_lineno : Z;
  co_filename : string;
  co_name : string
}.

(** An exception object.  [e_is_Exception] tells whether its class
    derives from [Exception] (it does not for [KeyboardInterrupt],
    [SystemExit], [GeneratorExit]); [e_http] is [Some (code, body)] for an
    [HTTPError], whose [read()] returns [body]; [e_tb] is the traceback
    chain, [None] of Python being the empty chain; [e_is_StopIteration]
    tells whether its class is [StopIteration] or derives from it. *)
Record exnobj : Type := Exn {
  e_class : string;
  e_is_Exception : bool;
  e_args : list pyval;
  e_http : option (Z * pyval);
  e_tb : list tb_entry;
  e_is_StopIteration : bool
}.

Inductive result (A : Type) : Type :=
  | Ok (a : A)
  | Raise (e : exnobj).
Arguments Ok {A} a.
Arguments Raise {A} e.

Definition rbind {A B} (m : result A) (f : A → result B) : result B :=
  match m with
  | Ok a => f a
  | Raise e => Raise e
  end.

#[global] Instance result_ret : MRet result := @Ok.
#[global] Instance result_bind : MBind result := λ A B f m, rbind m f.

(** [try: m  except Exception as e: h e] *)
Definition try_except_Exception {A} (m : result A) (h : exnobj → result A)
  : result A :=
  match m with
  | Ok a => Ok a
  | Raise e => if e_is_Exception e then h e else Raise e
  end.

(** [try: m  except: h] (a bare [except] catches everything) *)
Definition try_except_all {A} (m : result A) (h : exnobj → result A)
  : result A :=
  match m with
  | Ok a => Ok a
  | Raise e => h e
  end.

(** [class StackSentinelError(ValueError)] *)
Definition StackSentinelError (arg : pyval) : exnobj :=
  {| e_class := "StackSentinelError"; e_is_Exception := true;
     e_args := [arg]; e_http := None; e_tb := []; e_is_StopIteration := false |}.

Definition AttributeError (msg : string) : exnobj :=
  {| e_class := "AttributeError"; e_is_Exception := true;
     e_args := [PStr msg]; e_http := None; e_tb := []; e_is_StopIteration := false |}.

Definition TypeError (msg : string) : exnobj :=
  {| e_class := "TypeError"; e_is_Exception := true;
     e_args := [PStr msg]; e_http := None; e_tb := []; e_is_StopIteration := false |}.

Definition LookupError (msg : string) : exnobj :=
  {| e_class := "LookupError"; e_is_Exception := true;
     e_args := [PStr msg]; e_http := None; e_tb := []; e_is_StopIteration := false |}.

Definition IndexError (msg : string) : exnobj :=
  {| e_class := "IndexError"; e_is_Exception := true;
     e_args := [PStr msg]; e_http := None; e_tb := []; e_is_StopIteration := false |}.

Definition ValueError (msg : string) : exnobj :=
  {| e_class := "ValueError"; e_is_Exception := true;
     e_args := [PStr msg]; e_http := None; e_tb := [];
     e_is_StopIteration := false |}.

(** What [json] raises on a container that it is already encoding. *)
Definition circular_reference : exnobj :=
  ValueError "Circular reference detected".

(** What [json] raises when the nesting of a value exhausts the stack. *)
Definition RecursionError : exnobj :=
  {| e_class := "RecursionError"; e_is_Exception := true;
     e_args := [PStr "maximum recursion depth exceeded while encoding a JSON object"];
     e_http := None; e_tb := []; e_is_StopIteration := false |}.

(** What a generator raises in place of a [StopIteration] that leaves its
    body (PEP 479). *)
Definition RuntimeError (msg : string) : exnobj :=
  {| e_class := "RuntimeError"; e_is_Exception := true;
     e_args := [PStr msg]; e_http := None; e_tb := [];
     e_is_StopIteration := false |}.

(** [GeneratorExit], thrown into a generator at its [yield] when the
    consumer closes it. *)
Definition GeneratorExit : exnobj :=
  {| e_class := "GeneratorExit"; e_is_Exception := false;
     e_args := []; e_http := None; e_tb := []; e_is_StopIteration := false |}.

(** ** JSON documents *)

Inductive json : Type :=
  | JNull
  | JBool (b : bool)
  | JNum (z : Z)
  | JStr (s : string)
  | JArr (l : list json)
  | JObj (m : list (string * json)).

Fixpoint jobj_get (k : string) (m : list (string * json)) : option json :=
  match m with
  | [] => None
  | (k', v) :: m' => if decide (k = k') then Some v else jobj_get k m'
  end.

(** What [json] makes of a dictionary key: strings stay, an [int] is
    printed in decimal, [None] becomes [null]; any other key is a
    [TypeError] ([skipkeys] is off). *)
Definition json_key (k : pykey) : result string :=
  match k with
  | KStr s => Ok s
  | KInt z => Ok (pretty z)
  | KNone => Ok "null"
  | KTuple _ =>
      Raise (TypeError "keys must be str, int, float, bool or None, not tuple")
  end.

(** [json.dumps(v, default=default)] up to the printing of the document:
    the encoder walks lists, tuples and dictionaries, and hands every
    object of another kind to [default], whose result it encodes in
    turn. *)
Section Dumps.
Variable default : pyobj → string.

Fixpoint json_dumps (v : pyval) : result json :=
  match v with
  | PNone => Ok JNull
  | PBool b => Ok (JBool b)
  | PInt z => Ok (JNum z)
  | PStr s => Ok (JStr s)
  | PList l =>
      (fix items (l : list pyval) : result (list json) :=
         match l with
         | [] => Ok []
         | x :: l' =>
             j ← json_dumps x; js ← items l'; Ok (j :: js)
         end) l ≫= λ js, Ok (JArr js)
  | PTuple l =>
      (fix items (l : list pyval) : result (list json) :=
         match l with
         | [] => Ok []
         | x :: l' =>
             j ← json_dumps x; js ← items l'; Ok (j :: js)
         end) l ≫= λ js, Ok (JArr js)
  | PDict d =>
      (fix entries (d : pydict) : result (list (string * json)) :=
         match d with
         | [] => Ok []
         | (k, x) :: d' =>
             s ← json_key k; j ← json_dumps x; m ← entries d';
             Ok ((s, j) :: m)
         end) d ≫= λ m, Ok (JObj m)
  | PObj o => Ok (JStr (default o))
  | PCircular => Raise circular_reference
  end.

Fixpoint dumps_items (l : list pyval) : result (list json) :=
  match l with
  | [] => Ok []
  | x :: l' => j ← json_dumps x; js ← dumps_items l'; Ok (j :: js)
  end.

Fixpoint dumps_entries (d : pydict) : result (list (string * json)) :=
  match d with
  | [] => Ok []
  | (k, x) :: d' =>
      s ← json_key k; j ← json_dumps x; m ← dumps_entries d';
      Ok ((s, j) :: m)
  end.

(** The encoder as the interpreter runs it.  Every list, tuple and
    dictionary it enters, and every call of [default], takes one level
    of the stack; [budget] is the number of levels left, and the encoder
    raises [RecursionError] where it needs one more; what [default]
    returns is a string, encoded as it is.  A container met again inside
    itself is entered like any other, and then found among those being
    encoded. *)
Fixpoint json_dumps_within (budget : nat) (v : pyval) {struct v}
  : result json :=
  match v with
  | PNone => Ok JNull
  | PBool b => Ok (JBool b)
  | PInt z => Ok (JNum z)
  | PStr s => Ok (JStr s)
  | PList l =>
      match budget with
      | O => Raise RecursionError
      | S rest =>
          (fix items (l : list pyval) : result (list json) :=
             match l with
             | [] => Ok []
             | x :: l' =>
                 j ← json_dumps_within rest x; js ← items l'; Ok (j :: js)
             end) l ≫= λ js, Ok (JArr js)
      end
  | PTuple l =>
      match budget with
      | O => Raise RecursionError
      | S rest =>
          (fix items (l : list pyval) : result (list json) :=
             match l with
             | [] => Ok []
             | x :: l' =>
                 j ← json_dumps_within rest x; js ← items l'; Ok (j :: js)
             end) l ≫= λ js, Ok (JArr js)
      end
  | PDict d =>
      match budget with
      | O => Raise RecursionError
      | S rest =>
          (fix entries (d : pydict) : result (list (string * json)) :=
             match d with
             | [] => Ok []
             | (k, x) :: d' =>
                 s ← json_key k; j ← json_dumps_within rest x; m ← entries d';
                 Ok ((s, j) :: m)
             end) d ≫= λ m, Ok (JObj m)
      end
  | PObj o =>
      match budget with
      | O => Raise RecursionError
      | S _ => Ok (JStr (default o))
      end
  | PCircular =>
      match budget with
      | O => Raise RecursionError
      | S _ => Raise circular_reference
      end
  end.

Definition within_items (budget : nat) : list pyval → result (list json) :=
  fix items (l : list pyval) : result (list json) :=
    match l with
    | [] => Ok []
    | x :: l' => j ← json_dumps_within budget x; js ← items l'; Ok (j :: js)
    end.

Definition within_entries (budget : nat)
  : pydict → result (list (string * json)) :=
  fix entries (d : pydict) : result (list (string * json)) :=
    match d with
    | [] => Ok []
    | (k, x) :: d' =>
        s ← json_key k; j ← json_dumps_within budget x; m ← entries d';
        Ok ((s, j) :: m)
    end.
End Dumps.

(** ** The interpreter and the host *)

(** [Request(url, data=..., headers=...)]; [data] is the envelope. *)
Record Request : Type := MkRequest {
  req_url : string;
  req_data : json;
  req_headers : list (string * string)
}.

(** What [urlopen] returns: [read()], [headers.get_content_charset()]
    and [headers.get('content-type')]. *)
Record http_response : Type := HttpResponse {
  resp_body : string;
  resp_content_charset : option string;
  resp_content_type : option string
}.

(** Everything the code asks of its surroundings: the [sys], [socket],
    [os] and [platform] modules, [repr], [str] and [unicode] on exception
    objects, the remote service behind [urlopen], and the decoding of the
    reply.  Each facility that can raise is a [result].
    [recursion_budget] is the nesting [json.dumps] can go through before
    the stack is exhausted; [request_error url] is what [Request(url, ...)]
    raises, if anything (on Python 3, [ValueError] for a url without a
    scheme); [generator_stop] tells whether a [StopIteration] that leaves
    a generator becomes a [RuntimeError] (Python 3.7 and later). *)
Record runtime : Type := Runtime {
  version_info_major : Z;
  sys_version : pyval;
  sys_version_info : pyval;
  sys_path : pyval;
  sys_platform : pyval;
  socket : bool;
  socket_gethostname : result pyval;
  os_environ : result pyval;
  platform : bool;
  platform_uname : result pyval;
  platform_node : result pyval;
  platform_libc_ver : result pyval;
  platform_version : result pyval;
  platform_dist : result pyval;
  repr : exnobj → result string;
  str : exnobj → result string;
  unicode : exnobj → result string;
  urlopen : Request → result http_response;
  bytes_decode : string → string → result string;
  decode_utf8_replace : string → string;
  json_loads : string → result pyval;
  recursion_budget : nat;
  request_error : string → option exnobj;
  generator_stop : bool
}.

(** [sys.exc_info()] as a Python value: [None], or a triple whose
    components may each be [None]. *)
Record exc_triple : Type := ExcTriple {
  x_type : option string;
  x_value : option exnobj;
  x_tb : list tb_entry
}.

(** [sys.exc_info()]: the exception being handled, or a triple of three
    [None] when there is none.  It never returns [None] itself. *)
Definition sys_exc_info (handled : option exnobj) : option exc_triple :=
  match handled with
  | Some e => Some (ExcTriple (Some (e_class e)) (Some e) (e_tb e))
  | None => Some (ExcTriple None None [])
  end.

(** ** The store and the monad *)

Inductive event : Type :=
  | EvUrlopen (r : Request)
  | EvYield (v : pyval)
  | EvClose.

(** The dictionaries that are passed by reference, by address, and the
    events so far, latest first. *)
Record store : Type := Store {
  heap : list pydict;
  events : list event
}.

Definition M (A : Type) : Type := store → result A * store.

#[global] Instance M_ret : MRet M := λ A a s, (Ok a, s).
#[global] Instance M_bind : MBind M := λ A B f m s,
  match m s with
  | (Ok a, s') => f a s'
  | (Raise e, s') => (Raise e, s')
  end.

Definition lift {A} (r : result A) : M A := λ s, (r, s).
Definition raise {A} (e : exnobj) : M A := λ s, (Raise e, s).
Definition emit (ev : event) : M unit :=
  λ s, (Ok tt, Store (heap s) (ev :: events s)).

(** [try: m  except Exception as e: h e] *)
Definition try_Exception {A} (m : M A) (h : exnobj → M A) : M A := λ s,
  match m s with
  | (Ok a, s') => (Ok a, s')
  | (Raise e, s') => if e_is_Exception e then h e s' else (Raise e, s')
  end.

(** [try: m  finally: f]: [f] runs on every way out of [m]; an exception
    of [f] replaces the outcome of [m]. *)
Definition try_finally {A} (m : M A) (f : M unit) : M A := λ s,
  match m s with
  | (r, s') =>
      match f s' with
      | (Ok _, s'') => (r, s'')
      | (Raise e, s'') => (Raise e, s'')
      end
  end.

(** [if not b: m] *)
Definition unless (b : bool) (m : M unit) : M unit :=
  if b then mret tt else m.

(** A new dictionary object. *)
Definition new_dict (d : pydict) : M nat := λ s,
  (Ok (length (heap s)), Store (heap s ++ [d]) (events s)).

(** The dictionary at an address; an address that was never allocated
    reads as the empty dictionary. *)
Definition deref (a : nat) (s : store) : pydict := default [] (heap s !! a).

Definition read_dict (a : nat) : M pydict := λ s, (Ok (deref a s), s).

(** [k in state] *)
Definition state_mem (k : pykey) (a : nat) : M bool :=
  λ s, (Ok (dict_mem k (deref a s)), s).

(** [state[k] = v], on the object itself. *)
Definition state_set (k : pykey) (v : pyval) (a : nat) : M unit :=
  λ s, (Ok tt, Store (alter (dict_set k v) a (heap s)) (events s)).

(** ** String helpers of the reply decoding *)

Fixpoint string_drop (n : nat) (s : string) : string :=
  match n, s with
  | O, _ => s
  | S n', String _ s' => string_drop n' s'
  | S _, EmptyString => EmptyString
  end.

(** [s.split(sep)[-1]] for a non-empty [sep].  [split] looks for [sep]
    from the left and goes on after each occurrence; [last] is what
    follows the latest occurrence found, the whole string at first, and
    [skip] the number of characters still covered by that occurrence. *)
Fixpoint split_last_from (sep : string) (skip : nat) (s last : string)
  : string :=
  match s with
  | EmptyString => last
  | String _ s' =>
      match skip with
      | S k => split_last_from sep k s' last
      | O =>
          if String.prefix sep s
          then split_last_from sep (String.length sep - 1) s'
                 (string_drop (String.length sep) s)
          else split_last_from sep O s' last
      end
  end.

Definition split_last (sep s : string) : string :=
  split_last_from sep O s s.

Fixpoint lstrip (s : string) : string :=
  match s with
  | String c s' => if Ascii.is_space c then lstrip s' else s
  | EmptyString => EmptyString
  end.

(** [s.strip()] *)
Definition strip (s : string) : string :=
  String.rev (lstrip (String.rev (lstrip s))).

(** ** [class StackSentinelClient] *)

(** The keyword arguments of [send_error], as [handle_exception] collects
    them in [send_error_args]; [state] is the address of the dictionary. *)
Record send_error_args : Type := SendErrorArgs {
  error_type : string;
  error_message : string;
  traceback : list pyval;
  environment : string;
  state : nat;
  tags : list pyval;
  return_feedback_urls : bool
}.

(** What [handle_exception] returns: [send_error_args] on a dry run, else
    the parsed reply of the service. *)
Inductive handled : Type :=
  | DryRun (args : send_error_args)
  | Reply (v : pyval).

Module StackSentinelClient.

Record t : Type := Client {
  self_account_token : string;
  self_project_token : string;
  self_endpoint : string;
  self_environment : string;
  self_tags : list pyval
}.

Definition USER_AGENT : string := "STACK SENTINEL PYTHON CLIENT".

(** [__init__]: [tags] is [None] or a list; an empty list is falsy. *)
Definition __init__ (account_token project_token environment : string)
    (tags : option (list pyval)) (endpoint : string) : t :=
  {| self_account_token := account_token;
     self_project_token := project_token;
     self_endpoint := endpoint;
     self_environment := environment;
     self_tags := match tags with
                  | Some (x :: l) => x :: l
                  | Some [] | None => []
                  end |}.

Definition default_endpoint : string :=
  "https://api.stacksentinel.com/api/v1/insert".

(** [try: return repr(obj)  except: return '<Cannot Be Serialized>'] *)
Definition _serialize_object (obj : pyobj) : string :=
  match o_repr obj with
  | Some s => s
  | None => "<Cannot Be Serialized>"
  end.

(** Reading the four attributes of [sys] does not raise. *)
Definition _get_sys_info (w : runtime) : pyval :=
  PDict [(KStr "version", sys_version w);
         (KStr "version_info", sys_version_info w);
         (KStr "path", sys_path w);
         (KStr "platform", sys_platform w)].

(** ['<Could not determine: %r>' % (e,)] *)
Definition could_not_determine (w : runtime) (e : exnobj) : result pyval :=
  r ← repr w e; Ok (PStr ("<Could not determine: " +:+ r +:+ ">")).

Definition _get_machine_info (w : runtime) : result pyval :=
  let machine : pydict := [] in
  hostname ←
    (if socket w
     then try_except_Exception (socket_gethostname w) (could_not_determine w)
     else Ok (PStr "<socket module not available>"));
  let machine := dict_set (KStr "hostname") hostname machine in
  environ ← os_environ w;
  let machine := dict_set (KStr "environ") environ machine in
  if platform w then
    uname ← platform_uname w;
    let machine := dict_set (KStr "platform") uname machine in
    node ← platform_node w;
    let machine := dict_set (KStr "node") node machine in
    libc_ver ← platform_libc_ver w;
    let machine := dict_set (KStr "libc_ver") libc_ver machine in
    version ← platform_version w;
    let machine := dict_set (KStr "version") version machine in
    dist ← platform_dist w;
    let machine := dict_set (KStr "dist") dist machine in
    Ok (PDict machine)
  else Ok (PDict machine).

(** The envelope handed to [json.dumps], with the dictionary that
    [state] refers to read from the store. *)
Definition envelope (self : t) (environment error_message error_type : string)
    (return_feedback_urls : bool) (state : pydict) (tags traceback : list pyval)
  : pyval :=
  PDict [(KStr "account_token", PStr (self_account_token self));
         (KStr "project_token", PStr (self_project_token self));
         (KStr "return_feedback_urls", PBool return_feedback_urls);
         (KStr "errors", PList [PDict [
            (KStr "error_type", PStr error_type);
            (KStr "error_message", PStr error_message);
            (KStr "environment", PStr environment);
            (KStr "traceback", PList traceback);
            (KStr "state", PDict state);
            (KStr "tags", PList match tags with [] => [] | _ => tags end)]])].

(** [Request(url, data=data, headers=headers)] *)
Definition Request_init (w : runtime) (url : string) (data : json)
    (headers : list (string * string)) : result Request :=
  match request_error w url with
  | Some e => Raise e
  | None => Ok (MkRequest url data headers)
  end.

Definition _generate_request (w : runtime) (self : t)
    (environment error_message error_type : string)
    (return_feedback_urls : bool) (state : nat) (tags traceback : list pyval)
  : M (Request * json) :=
  d ← read_dict state;
  payload ← lift (json_dumps_within _serialize_object (recursion_budget w)
                    (envelope self environment error_message error_type
                       return_feedback_urls d tags traceback));
  request ← lift (Request_init w (self_endpoint self) payload
                    [("Accept-Charset", "utf-8");
                     ("Content-Type",
                      "application/x-www-form-urlencoded ; charset=UTF-8");
                     ("User-Agent", USER_AGENT)]);
  mret (request, payload).

(** [urlopen(request)] under [except HTTPError as e]: a 400 becomes a
    [StackSentinelError] carrying [e.read()], anything else is raised
    again. *)
Definition open_request (w : runtime) (request : Request) : M http_response :=
  emit (EvUrlopen request);;
  match urlopen w request with
  | Ok response => mret response
  | Raise e =>
      match e_http e with
      | Some (code, body) =>
          if code =? 400 then raise (StackSentinelError body) else raise e
      | None => raise e
      end
  end.

(** [x or y], for [x] a string or [None] *)
Definition str_or (x : option string) (y : string) : string :=
  match x with
  | Some c => if bool_decide (c = "") then y else c
  | None => y
  end.

(** The two branches of [if sys.version_info.major > 2] that turn the
    reply into text.  In the second one a non-empty [encoding] leads to
    [decode('utf8', 'replace')] and an empty one to [decode(encoding)]. *)
Definition read_text (w : runtime) (response : http_response) : result string :=
  if 2 <? version_info_major w then
    bytes_decode w (str_or (resp_content_charset response) "utf8")
      (resp_body response)
  else
    let encoding :=
      strip (split_last "charset=" (default "" (resp_content_type response))) in
    if bool_decide (encoding ≠ "")
    then Ok (decode_utf8_replace w (resp_body response))
    else bytes_decode w encoding (resp_body response).

Definition send_error (w : runtime) (self : t) (a : send_error_args) : M pyval :=
  '(request, payload) ←
    _generate_request w self (environment a) (error_message a) (error_type a)
      (return_feedback_urls a) (state a) (tags a) (traceback a);
  response ← open_request w request;
  text_response ← lift (read_text w response);
  lift (json_loads w text_response).

(** [value.args[0]] *)
Definition first_arg (value : option exnobj) : result pyval :=
  match value with
  | None => Raise (AttributeError "'NoneType' object has no attribute 'args'")
  | Some v =>
      match e_args v with
      | x :: _ => Ok x
      | [] => Raise (IndexError "tuple index out of range")
      end
  end.

(** [repr(value)] *)
Definition repr_value (w : runtime) (value : option exnobj) : result pyval :=
  match value with
  | None => Ok (PStr "None")
  | Some v => r ← repr w v; Ok (PStr r)
  end.

(** [etype.__name__] *)
Definition type_name (etype : option string) : result string :=
  match etype with
  | Some name => Ok name
  | None => Raise (AttributeError "'NoneType' object has no attribute '__name__'")
  end.

(** [str(value)] and [unicode(value)] *)
Definition str_value (w : runtime) (value : option exnobj) : result string :=
  match value with
  | None => Ok "None"
  | Some v => str w v
  end.

Definition unicode_value (w : runtime) (value : option exnobj) : result string :=
  match value with
  | None => Ok "None"
  | Some v => unicode w v
  end.

(** ['<Unable to get sys: %r>' % e] *)
Definition unable_to_get_sys (w : runtime) (e : exnobj) : result pyval :=
  r ← repr w e; Ok (PStr ("<Unable to get sys: " +:+ r +:+ ">")).

(** ['<Unable to get machine: %e>' % e]: [%e] formats a float, and an
    exception is none, so the formatting itself raises [TypeError]. *)
Definition float_required (w : runtime) (e : exnobj) : exnobj :=
  TypeError (if 2 <? version_info_major w
             then "must be real number, not " +:+ e_class e
             else "float argument required, not " +:+ e_class e).

Definition unable_to_get_machine (w : runtime) (e : exnobj) : result pyval :=
  Raise (float_required w e).

(** The [while] loop over the traceback chain. *)
Fixpoint walk_tb (limit : option Z) (n : Z) (tb : list tb_entry)
    (new_tb : list pyval) : list pyval :=
  match tb with
  | [] => new_tb
  | entry :: tb_next =>
      if match limit with None => true | Some l => n <? l end
      then walk_tb limit (n + 1) tb_next
             (new_tb ++ [PDict [(KStr "line", PInt (tb_lineno entry));
                                (KStr "module", PStr (co_filename entry));
                                (KStr "method", PStr (co_name entry))]])
      else new_tb
  end.

(** [self.tags + tags] *)
Definition list_add (l : list pyval) (v : pyval) : result (list pyval) :=
  match v with
  | PList l' => Ok (l ++ l')
  | _ => Raise (TypeError "can only concatenate list to list")
  end.

(** [if 'sys' not in state: ...] *)
Definition populate_sys (w : runtime) (state : nat) : M unit :=
  has_sys ← state_mem (KStr "sys") state;
  unless has_sys
    (try_Exception
       (v ← lift (Ok (_get_sys_info w)); state_set (KStr "sys") v state)
       (λ e, v ← lift (unable_to_get_sys w e);
             state_set (KStr "sys") v state)).

(** [if 'machine' not in state: ...] *)
Definition populate_machine (w : runtime) (state : nat) : M unit :=
  has_machine ← state_mem (KStr "machine") state;
  unless has_machine
    (try_Exception
       (v ← lift (_get_machine_info w); state_set (KStr "machine") v state)
       (λ e, v ← lift (unable_to_get_machine w e);
             state_set (KStr "machine") v state)).

(** The two branches of [if sys.version_info.major > 2]. *)
Definition error_texts (w : runtime) (etype : option string)
    (value : option exnobj) : result (string * string) :=
  if 2 <? version_info_major w
  then error_type ← type_name etype; error_message ← str_value w value;
       Ok (error_type, error_message)
  else error_type ← type_name etype; error_message ← unicode_value w value;
       Ok (error_type, error_message).

(** [handle_exception] up to [send_error_args = dict(...)].  [handling]
    is the exception the interpreter is handling at the time of the
    call, if any; [exc_info] is [None] for an omitted or falsy argument;
    [state] is [None] or the address of the caller's dictionary. *)
Definition collect_send_error_args (w : runtime) (self : t)
    (handling : option exnobj) (exc_info : option exc_triple)
    (state : option nat) (tags : pyval) (return_feedback_urls : bool)
  : M send_error_args :=
  let exc_info :=
    match exc_info with
    | Some x => Some x
    | None => sys_exc_info handling
    end in
  match exc_info with
  | None =>
      raise (StackSentinelError
               (PStr "handle_exception called outside of exception handler"))
  | Some (ExcTriple etype value tb) =>
      msg ← lift (try_except_all (first_arg value) (λ _, repr_value w value));
      let tags := match tags with PList _ => tags | _ => PList [tags] end in
      let limit : option Z := None in
      let new_tb := walk_tb limit 0 tb [] in
      state ← match state with
              | None => new_dict []
              | Some a => mret a
              end;
      populate_sys w state;;
      populate_machine w state;;
      let tags := match tags with PNone => PList [] | _ => tags end in
      '(error_type, error_message) ← lift (error_texts w etype value);
      all_tags ← lift (list_add (self_tags self) tags);
      mret {| error_type := error_type;
              error_message := error_message;
              traceback := new_tb;
              environment := self_environment self;
              state := state;
              tags := all_tags;
              return_feedback_urls := return_feedback_urls |}
  end.

Definition handle_exception (w : runtime) (self : t)
    (handling : option exnobj) (exc_info : option exc_triple)
    (state : option nat) (tags : pyval)
    (return_feedback_urls dry_run : bool) : M handled :=
  send_error_args ←
    collect_send_error_args w self handling exc_info state tags
      return_feedback_urls;
  if dry_run
  then mret (DryRun send_error_args)
  else v ← send_error w self send_error_args; mret (Reply v).

End StackSentinelClient.

(** ** [class StackSentinelMiddleware] *)

Module StackSentinelMiddleware.

(** What the wrapped application returns when it is not [None]: the
    items its iteration gives, how the iteration ends ([None]: it is
    exhausted, that is [__next__] raises [StopIteration], which ends the
    loop; [Some e]: the [for] statement raises [e] after the items), and
    [close] when the
    object has one, with what calling it does. *)
Record response : Type := Response {
  r_items : list pyval;
  r_raises : option exnobj;
  r_close : option (result unit)
}.

(** [app(environ, start_response)] raises, returns [None] or returns a
    response. *)
Record t : Type := Middleware {
  app : pyval → result (option response);
  client : StackSentinelClient.t
}.

(** [self.client.handle_exception(state={'wsgi_environ': environ})],
    called while [e] is being handled. *)
Definition report (w : runtime) (self : t) (e : exnobj) (environ : pyval)
  : M handled :=
  state ← new_dict [(KStr "wsgi_environ", environ)];
  StackSentinelClient.handle_exception w (client self) (Some e) None
    (Some state) PNone false false.

(** [for i in result: yield i].  [more] is how many further items the
    consumer of the generator asks for after the one it is given, before
    it closes the generator ([None]: it goes on to the end); closing
    raises [GeneratorExit] at the [yield]. *)
Fixpoint for_yield (items : list pyval) (raises : option exnobj)
    (more : option nat) : M unit :=
  match items with
  | [] =>
      match raises with
      | None => mret tt
      | Some e => raise e
      end
  | i :: rest =>
      emit (EvYield i);;
      match more with
      | Some O => raise GeneratorExit
      | Some (S k) => for_yield rest raises (Some k)
      | None => for_yield rest raises None
      end
  end.

(** [hasattr(result, 'close')] and [result.close()] *)
Definition close_result (result : option response) : M unit :=
  match result with
  | Some r =>
      match r_close r with
      | Some outcome => emit EvClose;; lift outcome
      | None => mret tt
      end
  | None => mret tt
  end.

(** [__call__] is a generator: its body runs when the consumer asks for
    the first item.  [takes] is the number of items the consumer takes
    before closing the generator ([None]: it iterates to the end); with
    [Some 0] the body never starts.  This is the body, with what leaves
    it; [next_outcome] below is what the consumer gets from it. *)
Definition __call__ (w : runtime) (self : t) (environ : pyval)
    (takes : option nat) : M unit :=
  match takes with
  | Some O => mret tt
  | _ =>
      let more := match takes with Some (S k) => Some k | _ => None end in
      result ←
        try_Exception (lift (app self environ))
          (λ e, report w self e environ;; raise e);
      try_finally
        (try_Exception
           (match result with
            | Some r => for_yield (r_items r) (r_raises r) more
            | None => mret tt
            end)
           (λ e, report w self e environ;; raise e))
        (close_result result)
  end.

(** What a call of [next] on the generator gives for an outcome of the
    body: a [StopIteration] that leaves the body of a generator is
    replaced by a [RuntimeError] where the interpreter applies PEP 479,
    any other outcome is passed on. *)
Definition next_outcome (w : runtime) (outcome : result unit) : result unit :=
  match outcome with
  | Raise e =>
      if generator_stop w && e_is_StopIteration e
      then Raise (RuntimeError "generator raised StopIteration")
      else Raise e
  | Ok _ => outcome
  end.

End StackSentinelMiddleware.

(** ** Sample runtimes and inputs *)

Module Samples.

(** [str] of an exception with one string argument is that string. *)
Definition sample_str (e : exnobj) : result string :=
  match e_args e with
  | [PStr s] => Ok s
  | _ => Ok (e_class e)
  end.

Definition sample_repr (e : exnobj) : result string :=
  Ok (e_class e +:+ "(...)").

(** A url has a scheme when a colon follows a first part that is not
    empty and has no slash. *)
Fixpoint has_scheme_from (seen : bool) (url : string) : bool :=
  match url with
  | EmptyString => false
  | String c url' =>
      if decide (String c "" = ":") then seen
      else if decide (String c "" = "/") then false
      else has_scheme_from true url'
  end.

(** [Request] of Python 3 on a url without a scheme. *)
Definition unknown_url_type (url : string) : option exnobj :=
  if has_scheme_from false url then None
  else Some (ValueError ("unknown url type: '" +:+ url +:+ "'")).

(** A Python 3 host on which every collector works and the service
    behaves as [service] says. *)
Definition host (hostname dist : result pyval)
    (service : Request → result http_response) : runtime :=
  {| version_info_major := 3;
     sys_version := PStr "3.7.0";
     sys_version_info := PTuple [PInt 3; PInt 7; PInt 0];
     sys_path := PList [PStr "/srv/app"];
     sys_platform := PStr "linux";
     socket := true;
     socket_gethostname := hostname;
     os_environ := Ok (PDict [(KStr "HOME", PStr "/root")]);
     platform := true;
     platform_uname := Ok (PTuple [PStr "Linux"; PStr "web-1"]);
     platform_node := Ok (PStr "web-1");
     platform_libc_ver := Ok (PTuple [PStr "glibc"; PStr "2.28"]);
     platform_version := Ok (PStr "#1 SMP");
     platform_dist := dist;
     repr := sample_repr;
     str := sample_str;
     unicode := sample_str;
     urlopen := service;
     bytes_decode := λ _ body, Ok body;
     decode_utf8_replace := λ body, body;
     json_loads := λ text, Ok (PStr text);
     recursion_budget := 300;
     request_error := unknown_url_type;
     generator_stop := true |}.

Definition accepts (r : Request) : result http_response :=
  Ok (HttpResponse "{}" (Some "utf-8") (Some "application/json")).

Definition HTTPError (code : Z) (body : pyval) : exnobj :=
  {| e_class := "HTTPError"; e_is_Exception := true;
     e_args := []; e_http := Some (code, body); e_tb := []; e_is_StopIteration := false |}.

Definition rejects (code : Z) (body : pyval) (r : Request)
  : result http_response :=
  Raise (HTTPError code body).

Definition dist_ok : result pyval :=
  Ok (PTuple [PStr "debian"; PStr "10"; PStr ""]).

(** From Python 3.8 on [platform.dist] is gone. *)
Definition dist_gone : result pyval :=
  Raise (AttributeError "module 'platform' has no attribute 'dist'").

Definition hostname_ok : result pyval := Ok (PStr "web-1").

Definition gaierror : exnobj :=
  {| e_class := "gaierror"; e_is_Exception := true;
     e_args := [PInt (-2); PStr "Name or service not known"];
     e_http := None; e_tb := []; e_is_StopIteration := false |}.

Definition python37 : runtime := host hostname_ok dist_ok accepts.
Definition python38 : runtime := host hostname_ok dist_gone accepts.

(** A host whose name cannot be looked up. *)
Definition nameless : runtime := host (Raise gaierror) dist_ok accepts.

(** A host whose service answers 400 with the body [bad token]. *)
Definition bad_token : runtime :=
  host hostname_ok dist_ok (rejects 400 (PStr "bad token")).

Definition sample_client (tags : option (list pyval)) : StackSentinelClient.t :=
  StackSentinelClient.__init__ "account" "project" "devel" tags
    StackSentinelClient.default_endpoint.

(** [1 / 0] caught in [<module>] of [app.py], line 15. *)
Definition zero_division : exnobj :=
  {| e_class := "ZeroDivisionError"; e_is_Exception := true;
     e_args := [PStr "division by zero"]; e_http := None;
     e_tb := [TbEntry 15 "app.py" "<module>"];
     e_is_StopIteration := false |}.

Definition boom : exnobj :=
  {| e_class := "ValueError"; e_is_Exception := true;
     e_args := [PStr "boom"]; e_http := None;
     e_tb := [TbEntry 7 "handler.py" "respond"];
     e_is_StopIteration := false |}.

(** [StopIteration()], which derives from [Exception]. *)
Definition stop_iteration : exnobj :=
  {| e_class := "StopIteration"; e_is_Exception := true;
     e_args := []; e_http := None;
     e_tb := [TbEntry 3 "handler.py" "first"];
     e_is_StopIteration := true |}.

Definition empty_store : store := Store [] [].

Definition environ : pyval :=
  PDict [(KStr "PATH_INFO", PStr "/"); (KStr "REQUEST_METHOD", PStr "GET")].

(** An application that raises [ValueError("boom")] when called. *)
Definition raising_app : StackSentinelMiddleware.t :=
  StackSentinelMiddleware.Middleware
    (λ _, Raise boom) (sample_client None).

(** An application that raises [StopIteration] when called, as one
    does that calls [next] on an empty iterator. *)
Definition stopping_app : StackSentinelMiddleware.t :=
  StackSentinelMiddleware.Middleware
    (λ _, Raise stop_iteration) (sample_client None).

(** An application whose response gives one item, raises
    [ValueError("boom")] on the second, and has a [close]. *)
Definition breaking_app : StackSentinelMiddleware.t :=
  StackSentinelMiddleware.Middleware
    (λ _, Ok (Some (StackSentinelMiddleware.Response
                      [PStr "<html>"] (Some boom) (Some (Ok tt)))))
    (sample_client None).


(** A [state] that holds itself: [state['self'] = state]. *)
Definition holds_itself : store :=
  Store [[(KStr "self", PCircular)]] [].

(** [n] lists, one inside the other, around [None]. *)
Fixpoint nested (n : nat) : pyval :=
  match n with
  | O => PNone
  | S n' => PList [nested n']
  end.

(** A [state] with a value nested as deep as the stack of [host]. *)
Definition deeply_nested : store :=
  Store [[(KStr "tree", nested 300)]] [].

(** A [state] with two objects [json] does not know, one whose [repr]
    works and one whose [repr] raises. *)
Definition with_objects : store :=
  Store [[(KStr "handler",
           PObj (PyObj "Handler" (Some "<Handler object at 0x10bcfbb90>")));
          (KStr "lock", PObj (PyObj "Lock" None))]] [].

End Samples.

(** ** Notions used in the statements *)

(** The error [handle_exception] means to raise outside of a handler. *)
Definition usage_error : exnobj :=
  StackSentinelError (PStr "handle_exception called outside of exception handler").

(** Every dictionary key inside [v] is one [json] can print. *)
Fixpoint json_keys_ok (v : pyval) : bool :=
  match v with
  | PList l | PTuple l =>
      (fix all (l : list pyval) : bool :=
         match l with
         | [] => true
         | x :: l' => json_keys_ok x && all l'
         end) l
  | PDict d =>
      (fix all (d : pydict) : bool :=
         match d with
         | [] => true
         | (k, x) :: d' =>
             match k with KTuple _ => false | _ => true end
             && json_keys_ok x && all d'
         end) d
  | _ => true
  end.

(** No container inside [v] holds itself. *)
Fixpoint acyclic (v : pyval) : bool :=
  match v with
  | PList l | PTuple l =>
      (fix all (l : list pyval) : bool :=
         match l with
         | [] => true
         | x :: l' => acyclic x && all l'
         end) l
  | PDict d =>
      (fix all (d : pydict) : bool :=
         match d with
         | [] => true
         | (_, x) :: d' => acyclic x && all d'
         end) d
  | PCircular => false
  | _ => true
  end.


(** [envelope['errors'][0]['state']] *)
Definition envelope_state (envelope : pyval) : option pyval :=
  match envelope with
  | PDict d =>
      match dict_get (KStr "errors") d with
      | Some (PList (PDict error :: _)) => dict_get (KStr "state") error
      | _ => None
      end
  | _ => None
  end.

(** [envelope['errors'][0]['tags']] *)
Definition envelope_tags (envelope : pyval) : option pyval :=
  match envelope with
  | PDict d =>
      match dict_get (KStr "errors") d with
      | Some (PList (PDict error :: _)) => dict_get (KStr "tags") error
      | _ => None
      end
  | _ => None
  end.

(** The calls of [close] and of [urlopen] among the events. *)
Fixpoint closes (evs : list event) : nat :=
  match evs with
  | [] => O
  | EvClose :: evs' => S (closes evs')
  | _ :: evs' => closes evs'
  end.

Definition requests (evs : list event) : list Request :=
  omap (λ ev, match ev with EvUrlopen r => Some r | _ => None end) evs.

(** A computation that calls no [close], whatever its outcome. *)
Definition quiet {A} (m : M A) : Prop :=
  ∀ s, closes (events (m s).2) = closes (events s).

(** The store once [items] have been yielded, in this order. *)
Definition yielded (items : list pyval) (s : store) : store :=
  Store (heap s) (rev (map EvYield items) ++ events s).

(** From [s] to [s'] nothing was sent or closed, no dictionary was
    created, and the dictionary at [a] kept every entry it had. *)
Definition keeps (a : nat) (s s' : store) : Prop :=
  events s' = events s
  ∧ length (heap s') = length (heap s)
  ∧ ∀ k v, dict_get k (deref a s) = Some v → dict_get k (deref a s') = Some v.

(** [isinstance(tags, list)] or else [[tags]] *)
Definition as_list (tags : pyval) : list pyval :=
  match tags with
  | PList l => l
  | _ => [tags]
  end.

(** The consumer of a generator asks for at least [n] further items. *)
Definition asks_for (more : option nat) (n : nat) : Prop :=
  match more with
  | None => True
  | Some k => (n ≤ k)%nat
  end.

(** The dictionary [walk_tb] appends for one entry of the chain. *)
Definition frame_info (entry : tb_entry) : pyval :=
  PDict [(KStr "line", PInt (tb_lineno entry));
         (KStr "module", PStr (co_filename entry));
         (KStr "method", PStr (co_name entry))].

(** The keys of a dictionary, in insertion order. *)
Definition dict_keys (d : pydict) : list pykey := map fst d.

(** The request [_generate_request] builds around a payload. *)
Definition request_of (self : StackSentinelClient.t) (payload : json) : Request :=
  MkRequest (StackSentinelClient.self_endpoint self) payload
    [("Accept-Charset", "utf-8");
     ("Content-Type", "application/x-www-form-urlencoded ; charset=UTF-8");
     ("User-Agent", StackSentinelClient.USER_AGENT)].

(** What [open_request] raises for an exception [e] of [urlopen]. *)
Definition mapped_error (e : exnobj) : exnobj :=
  match e_http e with
  | Some (code, body) => if code =? 400 then StackSentinelError body else e
  | None => e
  end.

(** The error of [json] on a key it cannot print. *)
Definition key_error : exnobj :=
  TypeError "keys must be str, int, float, bool or None, not tuple".

(** A computation that sends nothing, whatever its outcome. *)
Definition silent {A} (m : M A) : Prop :=
  ∀ s, requests (events (m s).2) = requests (events s).

(** The events a response adds when the middleware is done with it. *)
Definition close_events (r : StackSentinelMiddleware.response) : list event :=
  match StackSentinelMiddleware.r_close r with
  | Some _ => [EvClose]
  | None => []
  end.

(** The outcome of the [finally] clause over an outcome [r] of the body. *)
Definition after_close (r : StackSentinelMiddleware.response)
    (outcome : result unit) : result unit :=
  match StackSentinelMiddleware.r_close r with
  | Some (Raise closing) => Raise closing
  | _ => outcome
  end.

(** From [s] to [s'] no dictionary but the one at [a] changed, and in
    that one no key but ['sys'] and ['machine']. *)
Definition touches_only_sys_machine (a : nat) (s s' : store) : Prop :=
  (∀ b, b ≠ a → heap s' !! b = heap s !! b)
  ∧ ∀ k, k ≠ KStr "sys" → k ≠ KStr "machine" →
         dict_get k (deref a s') = dict_get k (deref a s).


(** Of calls made one after the other, none of them guarded, the
    exception of the first that raises. *)
Fixpoint first_raise (calls : list (result pyval)) : option exnobj :=
  match calls with
  | [] => None
  | Raise e :: _ => Some e
  | Ok _ :: calls' => first_raise calls'
  end.

(** * Properties *)

(** ** The definitions at work *)

Example split_last_charset :
  strip (split_last "charset=" "text/html; charset=latin-1 ") = "latin-1".
Proof. reflexivity. Qed.

Example split_last_without_charset :
  strip (split_last "charset=" "application/json") = "application/json".
Proof. reflexivity. Qed.

Example split_last_overlapping : split_last "aa" "aaa" = "a".
Proof. reflexivity. Qed.

(** The frames come out in the order of the chain. *)
Example walk_tb_order :
  StackSentinelClient.walk_tb None 0
    [TbEntry 3 "a.py" "f"; TbEntry 9 "b.py" "g"] []
  = [PDict [(KStr "line", PInt 3); (KStr "module", PStr "a.py");
            (KStr "method", PStr "f")];
     PDict [(KStr "line", PInt 9); (KStr "module", PStr "b.py");
            (KStr "method", PStr "g")]].
Proof. reflexivity. Qed.

Example walk_tb_empty : StackSentinelClient.walk_tb None 0 [] [] = [].
Proof. reflexivity. Qed.

Example json_key_int : json_key (KInt (-12)) = Ok "-12".
Proof. reflexivity. Qed.

(** A report on the Python 3.7 host: one request, and the parsed reply. *)
Example handle_exception_sends :
  ∃ request h,
    StackSentinelClient.handle_exception Samples.python37
      (Samples.sample_client None) (Some Samples.zero_division) None None
      (PList [PStr "billing"]) false false Samples.empty_store
    = (Ok (Reply (PStr "{}")), Store h [EvUrlopen request])
    ∧ req_url request = StackSentinelClient.default_endpoint.
Proof. eexists _, _. split; reflexivity. Qed.

(** On the Python 3.8 host the machine collector raises, and so does the
    formatting of its placeholder: the call ends in [TypeError], with
    ['sys'] already in the new dictionary and nothing sent. *)
Example handle_exception_on_python38 :
  StackSentinelClient.handle_exception Samples.python38
    (Samples.sample_client None) (Some Samples.zero_division) None None
    PNone false false Samples.empty_store
  = (Raise (TypeError "must be real number, not AttributeError"),
     Store [[(KStr "sys", StackSentinelClient._get_sys_info Samples.python38)]]
       []).
Proof. reflexivity. Qed.

(** ** Running the monad *)

Lemma bind_run {A B} (m : M A) (f : A → M B) (s : store) :
  (m ≫= f) s = match m s with
               | (Ok a, s') => f a s'
               | (Raise e, s') => (Raise e, s')
               end.
Proof. reflexivity. Qed.

Lemma ret_run {A} (a : A) (s : store) : (mret a : M A) s = (Ok a, s).
Proof. reflexivity. Qed.

Lemma lift_run {A} (r : result A) (s : store) : lift r s = (r, s).
Proof. reflexivity. Qed.

Lemma raise_run {A} (e : exnobj) (s : store) : @raise A e s = (Raise e, s).
Proof. reflexivity. Qed.

Lemma emit_run (ev : event) (s : store) :
  emit ev s = (Ok tt, Store (heap s) (ev :: events s)).
Proof. reflexivity. Qed.

Lemma read_dict_run (a : nat) (s : store) : read_dict a s = (Ok (deref a s), s).
Proof. reflexivity. Qed.

Lemma new_dict_run (d : pydict) (s : store) :
  new_dict d s = (Ok (length (heap s)), Store (heap s ++ [d]) (events s)).
Proof. reflexivity. Qed.

Create Rewrite HintDb mrun.
#[global] Hint Rewrite @bind_run @ret_run @lift_run @raise_run emit_run
  read_dict_run new_dict_run : mrun.

(** One step of a run: the binds applied to a store are opened and the
    primitive operations replaced by what they return. *)
Ltac mrun := repeat (progress (autorewrite with mrun; cbn beta iota)).

(** ** Dictionaries and the store *)

Lemma dict_get_set_eq (k : pykey) (v : pyval) (d : pydict) :
  dict_get k (dict_set k v d) = Some v.
Proof.
  induction d as [|[k' v'] d IH]; cbn.
  - by rewrite decide_True.
  - destruct (decide (k = k')) as [->|Hne]; cbn.
    + by rewrite decide_True.
    + by rewrite decide_False.
Qed.

Lemma dict_get_set_ne (k k' : pykey) (v : pyval) (d : pydict) :
  k ≠ k' → dict_get k' (dict_set k v d) = dict_get k' d.
Proof.
  intros Hne. induction d as [|[k0 v0] d IH]; cbn.
  - by rewrite decide_False.
  - destruct (decide (k = k0)) as [->|Hk]; cbn.
    + by rewrite !decide_False.
    + destruct (decide (k' = k0)); done.
Qed.

(** Assigning to a key that is absent keeps every entry that was there. *)
Lemma dict_get_set_absent (k k' : pykey) (v : pyval) (d : pydict) :
  dict_mem k d = false → dict_mem k' d = true →
  dict_get k' (dict_set k v d) = dict_get k' d.
Proof.
  intros Hk Hk'. apply dict_get_set_ne. intros ->. congruence.
Qed.

Lemma dict_mem_get (k : pykey) (d : pydict) (v : pyval) :
  dict_get k d = Some v → dict_mem k d = true.
Proof. unfold dict_mem. by intros ->. Qed.

Lemma deref_lookup (a : nat) (s : store) (d : pydict) :
  heap s !! a = Some d → deref a s = d.
Proof. unfold deref. by intros ->. Qed.

Lemma deref_alter (f : pydict → pydict) (a : nat) (h : list pydict)
    (evs : list event) (d : pydict) :
  h !! a = Some d → deref a (Store (alter f a h) evs) = f d.
Proof.
  intros Hd. unfold deref. cbn. rewrite list_lookup_alter_eq, Hd. reflexivity.
Qed.

Lemma deref_new (h : list pydict) (d : pydict) (evs : list event) :
  deref (length h) (Store (h ++ [d]) evs) = d.
Proof.
  unfold deref. cbn. rewrite lookup_app_r, Nat.sub_diag by lia. reflexivity.
Qed.

(** ** The steps of [handle_exception] *)

Section Client.
Import StackSentinelClient.
Variable w : runtime.
Variable self : StackSentinelClient.t.

Lemma populate_sys_run (a : nat) (s : store) :
  populate_sys w a s =
    (Ok tt,
     if dict_mem (KStr "sys") (deref a s) then s
     else Store (alter (dict_set (KStr "sys") (_get_sys_info w)) a (heap s))
            (events s)).
Proof.
  unfold populate_sys, state_mem, unless. mrun.
  destruct (dict_mem _ _); reflexivity.
Qed.

Lemma populate_machine_run (a : nat) (s : store) :
  populate_machine w a s =
    if dict_mem (KStr "machine") (deref a s) then (Ok tt, s)
    else match _get_machine_info w with
         | Ok v =>
             (Ok tt,
              Store (alter (dict_set (KStr "machine") v) a (heap s))
                (events s))
         | Raise e =>
             if e_is_Exception e then (Raise (float_required w e), s)
             else (Raise e, s)
         end.
Proof.
  unfold populate_machine, state_mem, unless. mrun.
  destruct (dict_mem _ _); [reflexivity|].
  unfold try_Exception. mrun.
  destruct (_get_machine_info w) as [v|e]; [reflexivity|].
  destruct (e_is_Exception e); reflexivity.
Qed.

Lemma error_texts_no_type (value : option exnobj) :
  error_texts w None value =
    Raise (AttributeError "'NoneType' object has no attribute '__name__'").
Proof. unfold error_texts. destruct (2 <? _); reflexivity. Qed.

(** The [state] argument resolved: the caller's dictionary, or a new
    empty one. *)
Lemma resolve_state_run (state : option nat) (s : store) :
  ∃ a s1,
    match state with Some a => mret a | None => new_dict [] end s = (Ok a, s1)
    ∧ events s1 = events s.
Proof. destruct state; by eexists _, _. Qed.

End Client.


(** ** [handle_exception] outside of a handler *)

(** C1, as the code has it.  With [exc_info] omitted and no exception
    being handled, [sys.exc_info()] gives a triple of three [None], which is
    not [None], so the test meant to raise [StackSentinelError] never
    fires: every such call does raise, but never that error. *)
Theorem handle_exception_outside_handler
    (w : runtime) (self : StackSentinelClient.t) (state : option nat)
    (tags : pyval) (return_feedback_urls dry_run : bool) (s : store) :
  ∃ e,
    (StackSentinelClient.handle_exception w self None None state tags
       return_feedback_urls dry_run s).1 = Raise e
    ∧ e ≠ usage_error.
Proof.
  unfold StackSentinelClient.handle_exception,
    StackSentinelClient.collect_send_error_args, sys_exc_info.
  destruct (resolve_state_run state s) as (a & s1 & Hres & _).
  cbn [StackSentinelClient.first_arg try_except_all
       StackSentinelClient.repr_value].
  mrun. rewrite Hres. mrun.
  rewrite populate_sys_run. mrun. rewrite populate_machine_run.
  rewrite error_texts_no_type.
  destruct (dict_mem (KStr "machine") _); mrun.
  - eexists; split; [reflexivity|discriminate].
  - destruct (StackSentinelClient._get_machine_info w) as [v|e]; mrun.
    + eexists; split; [reflexivity|discriminate].
    + destruct (e_is_Exception e) eqn:He; mrun;
        (eexists; split; [reflexivity|]); [discriminate|].
      intros ->. discriminate.
Qed.

(** At a concrete call: a client on Python 3.7, no exception in flight.
    The call fails on [etype.__name__], after it has filled a new [state]
    dictionary. *)
Example outside_handler_on_python37 :
  (StackSentinelClient.handle_exception Samples.python37
     (Samples.sample_client None) None None None PNone false true
     Samples.empty_store).1
  = Raise (AttributeError "'NoneType' object has no attribute '__name__'").
Proof. reflexivity. Qed.

(** ** The machine-info collector *)

(** C2 fails as stated.  On Python 3.8 and later [platform.dist] does not
    exist; the failure of this one sub-field is not replaced by a
    placeholder, it leaves the collector. *)
Lemma machine_info_propagates_platform_failure :
  platform_dist Samples.python38
  = Raise (AttributeError "module 'platform' has no attribute 'dist'")
  ∧ StackSentinelClient._get_machine_info Samples.python38
    = Raise (AttributeError "module 'platform' has no attribute 'dist'").
Proof. split; reflexivity. Qed.

(** C2, amended.  Only the host name lookup is guarded inside the
    collector.  Let [h] be what the guarded step leaves in
    [machine['hostname']]: the text ['<socket module not available>']
    without the [socket] module, the name [socket.gethostname()] returns,
    or ['<Could not determine: r>'] when it raises an [Exception] whose
    [repr] is [r].  Then the outcome of the collector is decided by the
    calls that follow, none of which is guarded: an exception of
    [dict(os.environ)] leaves the collector; with the [platform] module,
    so does the exception of the first of [uname], [node], [libc_ver],
    [version], [dist] that raises, and no placeholder is stored for it;
    otherwise the collector returns a mapping whose ['hostname'] is [h]
    and whose ['environ'] is the copy of the environment, with one entry
    for each platform call, and exactly these two entries without the
    [platform] module. *)
Theorem machine_info_guards_hostname_only (w : runtime) (h : pyval) :
  (socket w = false ∧ h = PStr "<socket module not available>")
  ∨ (socket w = true ∧ socket_gethostname w = Ok h)
  ∨ (socket w = true
     ∧ ∃ e r, socket_gethostname w = Raise e
              ∧ e_is_Exception e = true
              ∧ repr w e = Ok r
              ∧ h = PStr ("<Could not determine: " +:+ r +:+ ">")) →
  match os_environ w with
  | Raise e => StackSentinelClient._get_machine_info w = Raise e
  | Ok env =>
      if platform w
      then match first_raise [platform_uname w; platform_node w;
                              platform_libc_ver w; platform_version w;
                              platform_dist w] with
           | Some e => StackSentinelClient._get_machine_info w = Raise e
           | None =>
               ∃ d, StackSentinelClient._get_machine_info w = Ok (PDict d)
                    ∧ dict_get (KStr "hostname") d = Some h
                    ∧ dict_get (KStr "environ") d = Some env
                    ∧ ∀ key call,
                        In (key, call)
                           [("platform", platform_uname w);
                            ("node", platform_node w);
                            ("libc_ver", platform_libc_ver w);
                            ("version", platform_version w);
                            ("dist", platform_dist w)] →
                        ∃ x, call = Ok x ∧ dict_get (KStr key) d = Some x
           end
      else StackSentinelClient._get_machine_info w
           = Ok (PDict [(KStr "hostname", h); (KStr "environ", env)])
  end.
Proof.
  intros Hhost.
  assert ((if socket w
           then try_except_Exception (socket_gethostname w)
                  (StackSentinelClient.could_not_determine w)
           else Ok (PStr "<socket module not available>")) = Ok h) as Hstep.
  { destruct Hhost as [[-> ->]|[[-> ->]|[-> (e & r & -> & He & Hr & ->)]]];
      [reflexivity|reflexivity|].
    cbn [try_except_Exception]. rewrite He.
    unfold StackSentinelClient.could_not_determine. by rewrite Hr. }
  unfold StackSentinelClient._get_machine_info. rewrite Hstep.
  cbn [mbind result_bind rbind].
  destruct (os_environ w) as [env|e0]; cbn [rbind]; [|reflexivity].
  destruct (platform w); [|reflexivity].
  destruct (platform_uname w) as [uname|e1]; cbn [rbind first_raise];
    [|reflexivity].
  destruct (platform_node w) as [node|e2]; cbn [rbind first_raise];
    [|reflexivity].
  destruct (platform_libc_ver w) as [libc|e3]; cbn [rbind first_raise];
    [|reflexivity].
  destruct (platform_version w) as [version|e4]; cbn [rbind first_raise];
    [|reflexivity].
  destruct (platform_dist w) as [dist|e5]; cbn [rbind first_raise];
    [|reflexivity].
  eexists. split; [reflexivity|]. split; [reflexivity|].
  split; [reflexivity|].
  intros key call Hin. cbn [In] in Hin.
  destruct Hin as [[= <- <-]|[[= <- <-]|[[= <- <-]|[[= <- <-]|[[= <- <-]|[]]]]]];
    eexists; (split; [reflexivity|reflexivity]).
Qed.

(** The amended C2 on a host of Python 3.8 whose name cannot be looked
    up: the failure of the lookup is replaced by the placeholder, that of
    [platform.dist] leaves the collector. *)
Lemma machine_info_guards_hostname_only_witness :
  ((socket (Samples.host (Raise Samples.gaierror) Samples.dist_gone
              Samples.accepts) = false
    ∧ PStr "<Could not determine: gaierror(...)>"
      = PStr "<socket module not available>")
   ∨ (socket (Samples.host (Raise Samples.gaierror) Samples.dist_gone
                Samples.accepts) = true
      ∧ socket_gethostname (Samples.host (Raise Samples.gaierror)
                              Samples.dist_gone Samples.accepts)
        = Ok (PStr "<Could not determine: gaierror(...)>"))
   ∨ (socket (Samples.host (Raise Samples.gaierror) Samples.dist_gone
                Samples.accepts) = true
      ∧ ∃ e r,
          socket_gethostname (Samples.host (Raise Samples.gaierror)
                                Samples.dist_gone Samples.accepts)
          = Raise e
          ∧ e_is_Exception e = true
          ∧ repr (Samples.host (Raise Samples.gaierror) Samples.dist_gone
                    Samples.accepts) e = Ok r
          ∧ PStr "<Could not determine: gaierror(...)>"
            = PStr ("<Could not determine: " +:+ r +:+ ">")))
  ∧ StackSentinelClient._get_machine_info
      (Samples.host (Raise Samples.gaierror) Samples.dist_gone
         Samples.accepts)
    = Raise (AttributeError "module 'platform' has no attribute 'dist'").
Proof.
  assert ((socket (Samples.host (Raise Samples.gaierror) Samples.dist_gone
                     Samples.accepts) = false
           ∧ PStr "<Could not determine: gaierror(...)>"
             = PStr "<socket module not available>")
          ∨ (socket (Samples.host (Raise Samples.gaierror) Samples.dist_gone
                       Samples.accepts) = true
             ∧ socket_gethostname (Samples.host (Raise Samples.gaierror)
                                     Samples.dist_gone Samples.accepts)
               = Ok (PStr "<Could not determine: gaierror(...)>"))
          ∨ (socket (Samples.host (Raise Samples.gaierror) Samples.dist_gone
                       Samples.accepts) = true
             ∧ ∃ e r,
                 socket_gethostname (Samples.host (Raise Samples.gaierror)
                                       Samples.dist_gone Samples.accepts)
                 = Raise e
                 ∧ e_is_Exception e = true
                 ∧ repr (Samples.host (Raise Samples.gaierror)
                           Samples.dist_gone Samples.accepts) e = Ok r
                 ∧ PStr "<Could not determine: gaierror(...)>"
                   = PStr ("<Could not determine: " +:+ r +:+ ">")))
    as Hhost.
  { right. right. split; [reflexivity|].
    exists Samples.gaierror, "gaierror(...)". repeat split. }
  split; [exact Hhost|].
  exact (machine_info_guards_hostname_only _ _ Hhost).
Defined.

(** On the same host with [platform.dist] at hand the collector returns,
    with the placeholder for the host name. *)
Example machine_info_on_nameless_host :
  StackSentinelClient._get_machine_info Samples.nameless
  = Ok (PDict [(KStr "hostname",
                PStr "<Could not determine: gaierror(...)>");
               (KStr "environ", PDict [(KStr "HOME", PStr "/root")]);
               (KStr "platform", PTuple [PStr "Linux"; PStr "web-1"]);
               (KStr "node", PStr "web-1");
               (KStr "libc_ver", PTuple [PStr "glibc"; PStr "2.28"]);
               (KStr "version", PStr "#1 SMP");
               (KStr "dist", PTuple [PStr "debian"; PStr "10"; PStr ""])]).
Proof. reflexivity. Qed.

(** ** What [handle_exception] does to the store *)

Lemma keeps_refl (a : nat) (s : store) : keeps a s s.
Proof. by repeat split. Qed.

Lemma keeps_trans (a : nat) (s1 s2 s3 : store) :
  keeps a s1 s2 → keeps a s2 s3 → keeps a s1 s3.
Proof.
  intros (He1 & Hl1 & Hk1) (He2 & Hl2 & Hk2). repeat split.
  - congruence.
  - congruence.
  - intros k v Hv. by apply Hk2, Hk1.
Qed.

(** Setting a key that the dictionary at [a] lacks keeps what it has. *)
Lemma keeps_set_absent (a : nat) (k : pykey) (v : pyval) (s : store) :
  dict_mem k (deref a s) = false →
  keeps a s (Store (alter (dict_set k v) a (heap s)) (events s)).
Proof.
  intros Hk. repeat split.
  - cbn. by rewrite length_alter.
  - intros k' v' Hv'. unfold deref in *. cbn.
    rewrite list_lookup_alter_eq.
    destruct (heap s !! a) as [d|]; cbn in *; [|done].
    rewrite dict_get_set_ne; [done|].
    intros ->. unfold dict_mem in Hk. by rewrite Hv' in Hk.
Qed.

Section ClientStore.
Import StackSentinelClient.
Variable w : runtime.
Variable self : StackSentinelClient.t.

Lemma populate_sys_keeps (a : nat) (s : store) :
  keeps a s (populate_sys w a s).2.
Proof.
  rewrite populate_sys_run. cbn [snd].
  destruct (dict_mem _ _) eqn:Hm.
  - apply keeps_refl.
  - by apply keeps_set_absent.
Qed.

Lemma populate_machine_keeps (a : nat) (s : store) :
  keeps a s (populate_machine w a s).2.
Proof.
  rewrite populate_machine_run.
  destruct (dict_mem _ _) eqn:Hm; [apply keeps_refl|].
  destruct (_get_machine_info w) as [v|e].
  - by apply keeps_set_absent.
  - destruct (e_is_Exception e); apply keeps_refl.
Qed.

(** After [populate_sys] the key is there, in the object at [a]. *)
Lemma populate_sys_adds (a : nat) (s : store) (d : pydict) :
  heap s !! a = Some d →
  dict_get (KStr "sys") (deref a (populate_sys w a s).2)
  = if dict_mem (KStr "sys") d then dict_get (KStr "sys") d
    else Some (_get_sys_info w).
Proof.
  intros Hd. rewrite populate_sys_run. cbn [snd].
  rewrite (deref_lookup a s d Hd).
  destruct (dict_mem _ d) eqn:Hm.
  - by rewrite (deref_lookup a s d Hd).
  - rewrite (deref_alter _ a (heap s) (events s) d Hd).
    apply dict_get_set_eq.
Qed.

Lemma populate_machine_adds (a : nat) (s s' : store) (d : pydict) :
  heap s !! a = Some d →
  populate_machine w a s = (Ok tt, s') →
  if dict_mem (KStr "machine") d
  then dict_get (KStr "machine") (deref a s') = dict_get (KStr "machine") d
  else ∃ v, _get_machine_info w = Ok v
            ∧ dict_get (KStr "machine") (deref a s') = Some v.
Proof.
  intros Hd. rewrite populate_machine_run.
  rewrite (deref_lookup a s d Hd).
  destruct (dict_mem _ d) eqn:Hm.
  - intros [= <-]. by rewrite (deref_lookup a s d Hd).
  - destruct (_get_machine_info w) as [v|e].
    + intros [= <-]. exists v. split; [done|].
      rewrite (deref_alter _ a (heap s) (events s) d Hd).
      apply dict_get_set_eq.
    + destruct (e_is_Exception e); discriminate.
Qed.

(** The part of [collect_send_error_args] after [state] is resolved to
    the address [a]: on success the result is the bundle described. *)
Lemma collect_send_error_args_ok handling exc_info caller_state call_tags
    rfu s args s' :
  collect_send_error_args w self handling exc_info caller_state call_tags
    rfu s = (Ok args, s') →
  ∃ s1 s2 etype value tb,
    match caller_state with Some a => mret a | None => new_dict [] end s
    = (Ok (state args), s1)
    ∧ populate_sys w (state args) s1 = (Ok tt, s2)
    ∧ populate_machine w (state args) s2 = (Ok tt, s')
    ∧ error_texts w etype value = Ok (error_type args, error_message args)
    ∧ traceback args = walk_tb None 0 tb []
    ∧ environment args = self_environment self
    ∧ tags args = self_tags self ++ as_list call_tags
    ∧ return_feedback_urls args = rfu.
Proof.
  unfold collect_send_error_args.
  destruct (match exc_info with Some x => Some x | None => sys_exc_info handling end)
    as [[etype value tb]|]; [|discriminate].
  mrun.
  destruct (try_except_all _ _) as [msg|e]; mrun; [|discriminate].
  destruct (resolve_state_run caller_state s) as (a & s1 & Hres & _).
  rewrite Hres. mrun.
  destruct (populate_sys w a s1) as [r2 s2] eqn:Hs.
  assert (r2 = Ok tt) as -> by (rewrite populate_sys_run in Hs; congruence).
  mrun.
  destruct (populate_machine w a s2) as [[[]|e] s3] eqn:Hm; mrun;
    [|discriminate].
  destruct (error_texts w etype value) as [[ty text]|e] eqn:Ht; mrun;
    [|discriminate].
  destruct (list_add _ _) as [all|e] eqn:Hadd; mrun; [|discriminate].
  intros [= <- <-]. cbn.
  exists s1, s2, etype, value, tb.
  repeat split; try done.
  destruct call_tags; cbn in Hadd; by inversion Hadd.
Qed.

(** Whatever the outcome, the store is the one the call found, or the
    one left by the two [populate] steps on the resolved [state]. *)
Lemma collect_send_error_args_store handling exc_info caller_state call_tags
    rfu s :
  (collect_send_error_args w self handling exc_info caller_state call_tags
     rfu s).2 = s
  ∨ ∃ a s1,
      match caller_state with Some a => mret a | None => new_dict [] end s
      = (Ok a, s1)
      ∧ (collect_send_error_args w self handling exc_info caller_state
           call_tags rfu s).2
        = (populate_machine w a (populate_sys w a s1).2).2.
Proof.
  unfold collect_send_error_args.
  destruct (match exc_info with Some x => Some x | None => sys_exc_info handling end)
    as [[etype value tb]|]; [|by left].
  mrun.
  destruct (try_except_all _ _) as [msg|e]; mrun; [|by left].
  destruct (resolve_state_run caller_state s) as (a & s1 & Hres & _).
  right. exists a, s1. split; [done|].
  rewrite Hres. mrun.
  destruct (populate_sys w a s1) as [r2 s2] eqn:Hs.
  assert (r2 = Ok tt) as -> by (rewrite populate_sys_run in Hs; congruence).
  mrun. cbn [snd].
  destruct (populate_machine w a s2) as [[[]|e] s3] eqn:Hm; mrun; [|done].
  destruct (error_texts w etype value) as [[ty text]|e]; mrun; [|done].
  destruct (list_add _ _) as [all|e]; mrun; done.
Qed.

Lemma collect_send_error_args_events handling exc_info caller_state call_tags
    rfu s :
  events (collect_send_error_args w self handling exc_info caller_state
            call_tags rfu s).2 = events s.
Proof.
  destruct (collect_send_error_args_store handling exc_info caller_state
              call_tags rfu s) as [->|(a & s1 & Hres & ->)]; [done|].
  destruct (populate_machine_keeps a (populate_sys w a s1).2) as (-> & _).
  destruct (populate_sys_keeps a s1) as (-> & _).
  destruct caller_state; by inversion Hres.
Qed.

Lemma collect_send_error_args_keeps handling exc_info a call_tags rfu s :
  keeps a s
    (collect_send_error_args w self handling exc_info (Some a) call_tags
       rfu s).2.
Proof.
  destruct (collect_send_error_args_store handling exc_info (Some a)
              call_tags rfu s) as [->|(a' & s1 & Hres & ->)];
    [apply keeps_refl|].
  inversion Hres; subst a' s1.
  eapply keeps_trans; [apply populate_sys_keeps|apply populate_machine_keeps].
Qed.

End ClientStore.

(** ** The encoder *)

Lemma pyval_nested_ind (P : pyval → Prop) :
  P PNone → (∀ b, P (PBool b)) → (∀ z, P (PInt z)) → (∀ s, P (PStr s)) →
  (∀ l, Forall P l → P (PList l)) →
  (∀ l, Forall P l → P (PTuple l)) →
  (∀ d, Forall (λ kv, P kv.2) d → P (PDict d)) →
  (∀ o, P (PObj o)) →
  P PCircular →
  ∀ v, P v.
Proof.
  intros HNone HBool HInt HStr HList HTuple HDict HObj HCircular.
  fix IH 1. intros [ | b | z | s | l | l | d | o | ].
  - exact HNone.
  - apply HBool.
  - apply HInt.
  - apply HStr.
  - apply HList. induction l as [|x l IHl]; constructor; [apply IH|exact IHl].
  - apply HTuple. induction l as [|x l IHl]; constructor; [apply IH|exact IHl].
  - apply HDict.
    induction d as [|[k x] d IHd]; constructor; [apply IH|exact IHd].
  - apply HObj.
  - exact HCircular.
Qed.

Section Encoder.
Variable default : pyobj → string.

Lemma json_dumps_list (l : list pyval) :
  json_dumps default (PList l) = js ← dumps_items default l; Ok (JArr js).
Proof.
  reflexivity.
Qed.

Lemma json_dumps_tuple (l : list pyval) :
  json_dumps default (PTuple l) = js ← dumps_items default l; Ok (JArr js).
Proof.
  reflexivity.
Qed.

Lemma json_dumps_dict (d : pydict) :
  json_dumps default (PDict d) = m ← dumps_entries default d; Ok (JObj m).
Proof.
  reflexivity.
Qed.


End Encoder.



(** What the encoder returns on a bounded stack is what it returns on an
    unbounded one. *)
Lemma json_dumps_within_ok (default : pyobj → string) (v : pyval) :
  ∀ budget j,
    json_dumps_within default budget v = Ok j → json_dumps default v = Ok j.
Proof.
  induction v as [ | b | z | s | l IH | l IH | d IH | o | ]
    using pyval_nested_ind; intros budget j; try done.
  - destruct budget as [|rest]; [intros H; discriminate H|].
    change (json_dumps_within default (S rest) (PList l))
      with (js ← within_items default rest l; Ok (JArr js)).
    rewrite json_dumps_list.
    assert (∀ js, within_items default rest l = Ok js →
                  dumps_items default l = Ok js) as Hitems.
    { induction IH as [|x l Hx _ IHl]; [done|]. intros js. cbn.
      destruct (json_dumps_within default rest x) as [jx|e] eqn:Hjx;
        [|discriminate].
      rewrite (Hx _ _ Hjx). cbn.
      destruct (within_items default rest l) as [js'|e]; [|discriminate].
      by rewrite (IHl js' eq_refl). }
    destruct (within_items default rest l) as [js|e]; [|discriminate].
    by rewrite (Hitems js eq_refl).
  - destruct budget as [|rest]; [intros H; discriminate H|].
    change (json_dumps_within default (S rest) (PTuple l))
      with (js ← within_items default rest l; Ok (JArr js)).
    rewrite json_dumps_tuple.
    assert (∀ js, within_items default rest l = Ok js →
                  dumps_items default l = Ok js) as Hitems.
    { induction IH as [|x l Hx _ IHl]; [done|]. intros js. cbn.
      destruct (json_dumps_within default rest x) as [jx|e] eqn:Hjx;
        [|discriminate].
      rewrite (Hx _ _ Hjx). cbn.
      destruct (within_items default rest l) as [js'|e]; [|discriminate].
      by rewrite (IHl js' eq_refl). }
    destruct (within_items default rest l) as [js|e]; [|discriminate].
    by rewrite (Hitems js eq_refl).
  - destruct budget as [|rest]; [intros H; discriminate H|].
    change (json_dumps_within default (S rest) (PDict d))
      with (m ← within_entries default rest d; Ok (JObj m)).
    rewrite json_dumps_dict.
    assert (∀ m, within_entries default rest d = Ok m →
                 dumps_entries default d = Ok m) as Hentries.
    { induction IH as [|[k x] d Hx _ IHd]; [done|]. intros m. cbn.
      destruct (json_key k) as [ks|e]; [|discriminate]. cbn.
      destruct (json_dumps_within default rest x) as [jx|e] eqn:Hjx;
        [|discriminate].
      cbn in Hx. rewrite (Hx _ _ Hjx). cbn.
      destruct (within_entries default rest d) as [m'|e]; [|discriminate].
      by rewrite (IHd m' eq_refl). }
    destruct (within_entries default rest d) as [m|e]; [|discriminate].
    by rewrite (Hentries m eq_refl).
  - destruct budget; [intros H; discriminate H|done].
  - destruct budget; intros H; discriminate H.
Qed.




(** ** [send_error] *)

Section SendError.
Import StackSentinelClient.
Variable w : runtime.
Variable self : StackSentinelClient.t.

Lemma generate_request_run environment error_message error_type rfu a
    tgs tb s :
  _generate_request w self environment error_message error_type rfu a tgs tb s
  = (payload ← json_dumps_within _serialize_object (recursion_budget w)
                 (envelope self environment error_message error_type rfu
                    (deref a s) tgs tb);
     match request_error w (self_endpoint self) with
     | Some e => Raise e
     | None => Ok (request_of self payload, payload)
     end,
     s).
Proof.
  unfold _generate_request, Request_init, request_of. mrun.
  destruct (json_dumps_within _ _ _); mrun; [|reflexivity].
  by destruct (request_error w (self_endpoint self)).
Qed.

Lemma open_request_run (request : Request) (s : store) :
  open_request w request s
  = (match urlopen w request with
     | Ok response => Ok response
     | Raise e =>
         Raise match e_http e with
               | Some (code, body) =>
                   if code =? 400 then StackSentinelError body else e
               | None => e
               end
     end,
     Store (heap s) (EvUrlopen request :: events s)).
Proof.
  unfold open_request. mrun.
  destruct (urlopen w request) as [response|e]; [reflexivity|].
  destruct (e_http e) as [[code body]|]; [|reflexivity].
  destruct (code =? 400); reflexivity.
Qed.

(** [send_error] leaves the dictionaries alone, and sends at most one
    request, whose body is the encoded envelope. *)
Lemma send_error_store (a : send_error_args) (s : store) :
  heap (send_error w self a s).2 = heap s
  ∧ (events (send_error w self a s).2 = events s
     ∨ ∃ request,
         events (send_error w self a s).2 = EvUrlopen request :: events s
         ∧ json_dumps _serialize_object
             (envelope self (environment a) (error_message a) (error_type a)
                (return_feedback_urls a) (deref (state a) s) (tags a)
                (traceback a))
           = Ok (req_data request)).
Proof.
  unfold send_error. mrun. rewrite generate_request_run.
  destruct (json_dumps_within _ _ _) as [payload|e] eqn:Hdump;
    cbn [mbind result_bind rbind]; mrun; [|by split; [|left]].
  apply json_dumps_within_ok in Hdump.
  destruct (request_error w (self_endpoint self)); mrun; [by split; [|left]|].
  rewrite open_request_run.
  split.
  - destruct (urlopen w _) as [response|e]; mrun; [|done].
    destruct (read_text w response); mrun; [|done].
    by destruct (json_loads w _).
  - right. eexists. split.
    + destruct (urlopen w _) as [response|e]; mrun; [|done].
      destruct (read_text w response); mrun; [|done].
      by destruct (json_loads w _).
    + exact Hdump.
Qed.

End SendError.

(** C4.  When [urlopen] raises an [HTTPError] with code 400,
    [send_error] raises a [StackSentinelError] whose argument is the body
    the server sent, [e.read()]; an [HTTPError] with another code, like
    any other exception of [urlopen], is raised again as it is. *)
Theorem send_error_maps_400
    (w : runtime) (self : StackSentinelClient.t) (a : send_error_args)
    (s s1 : store) (request : Request) (payload : json) (e : exnobj) :
  StackSentinelClient._generate_request w self (environment a)
    (error_message a) (error_type a) (return_feedback_urls a) (state a)
    (tags a) (traceback a) s
  = (Ok (request, payload), s1) →
  urlopen w request = Raise e →
  (∀ body, e_http e = Some (400, body) →
     ∃ err, (StackSentinelClient.send_error w self a s).1 = Raise err
            ∧ err = StackSentinelError body
            ∧ e_class err = "StackSentinelError" ∧ e_args err = [body])
  ∧ (∀ code body, e_http e = Some (code, body) → code ≠ 400 →
       (StackSentinelClient.send_error w self a s).1 = Raise e)
  ∧ (e_http e = None →
       (StackSentinelClient.send_error w self a s).1 = Raise e).
Proof.
  intros Hgen Hopen. unfold StackSentinelClient.send_error.
  mrun. rewrite Hgen. mrun. rewrite open_request_run, Hopen.
  repeat split.
  - intros body ->. cbn. by eexists.
  - intros code body -> Hcode.
    by rewrite (proj2 (Z.eqb_neq code 400) Hcode).
  - by intros ->.
Qed.

(** C4 on the service that answers 400 with the body [bad token]. *)
Lemma send_error_maps_400_witness :
  let a := SendErrorArgs "ValueError" "boom" [] "devel" 0 [] false in
  let s := Store [[]] [] in
  ∃ request payload,
    StackSentinelClient._generate_request Samples.bad_token
      (Samples.sample_client None)
      (environment a) (error_message a) (error_type a)
      (return_feedback_urls a) (state a) (tags a) (traceback a) s
    = (Ok (request, payload), s)
    ∧ urlopen Samples.bad_token request
      = Raise (Samples.HTTPError 400 (PStr "bad token"))
    ∧ (StackSentinelClient.send_error Samples.bad_token
         (Samples.sample_client None) a s).1
      = Raise (StackSentinelError (PStr "bad token")).
Proof.
  intros a s. eexists _, _.
  split; [reflexivity|]. split; [reflexivity|].
  destruct (send_error_maps_400 Samples.bad_token (Samples.sample_client None)
              a s s _ _ (Samples.HTTPError 400 (PStr "bad token"))
              eq_refl eq_refl) as (H400 & _ & _).
  destruct (H400 (PStr "bad token") eq_refl) as (err & Herr & -> & _).
  exact Herr.
Defined.

(** ** [handle_exception] *)

Section HandleException.
Import StackSentinelClient.
Variable w : runtime.
Variable self : StackSentinelClient.t.

Lemma handle_exception_run handling exc_info caller_state call_tags rfu
    dry_run s :
  handle_exception w self handling exc_info caller_state call_tags rfu
    dry_run s
  = match collect_send_error_args w self handling exc_info caller_state
            call_tags rfu s with
    | (Ok args, s') =>
        if dry_run then (Ok (DryRun args), s')
        else (v ← send_error w self args; mret (Reply v)) s'
    | (Raise e, s') => (Raise e, s')
    end.
Proof.
  unfold handle_exception. mrun.
  destruct (collect_send_error_args _ _ _ _ _ _ _ _) as [[args|e] s'];
    [|reflexivity].
  destruct dry_run; reflexivity.
Qed.

(** The tags of a dry run: the client's, then the call's, a value that
    is not a list being wrapped in one, [None] included. *)
Lemma dry_run_tags handling exc_info caller_state call_tags rfu
    s args s' :
  handle_exception w self handling exc_info caller_state call_tags rfu
    true s = (Ok (DryRun args), s') →
  tags args = self_tags self ++ as_list call_tags.
Proof.
  rewrite handle_exception_run.
  destruct (collect_send_error_args _ _ _ _ _ _ _ _) as [[args'|e] s1] eqn:Hc;
    [|discriminate].
  intros [= <- <-].
  apply collect_send_error_args_ok in Hc
    as (? & ? & ? & ? & ? & _ & _ & _ & _ & _ & _ & Htags & _).
  exact Htags.
Qed.

Lemma reply_wrap_store (a : send_error_args) (s : store) :
  ((v ← send_error w self a; mret (Reply v)) s).2 = (send_error w self a s).2.
Proof. mrun. by destruct (send_error w self a s) as [[v|e] s']. Qed.

(** With [state] given, the call keeps what the caller's dictionary
    holds, whatever the outcome. *)
Lemma handle_exception_keeps handling exc_info a call_tags rfu dry_run s :
  let s' := (handle_exception w self handling exc_info (Some a) call_tags
               rfu dry_run s).2 in
  length (heap s') = length (heap s)
  ∧ ∀ k v, dict_get k (deref a s) = Some v → dict_get k (deref a s') = Some v.
Proof.
  cbn zeta. rewrite handle_exception_run.
  pose proof (collect_send_error_args_keeps w self handling exc_info a
                call_tags rfu s) as (_ & Hlen & Hkeep).
  destruct (collect_send_error_args _ _ _ _ _ _ _ _) as [[args|e] s1];
    cbn [snd] in *; [|done].
  destruct dry_run; [done|].
  rewrite reply_wrap_store.
  destruct (send_error_store w self args s1) as [Hheap _].
  unfold deref in *. rewrite Hheap. done.
Qed.

End HandleException.

(** C3, at the call that shows the slip.  A client with the default tag
    ['a'] handles [ZeroDivisionError] with [tags] omitted: the bundle
    carries ['a', None], not ['a'].  The argument is wrapped in a list
    before the test [tags is None], which therefore never holds. *)
Theorem handle_exception_tags_omitted :
  ∃ args s',
    StackSentinelClient.handle_exception Samples.python37
      (Samples.sample_client (Some [PStr "a"])) (Some Samples.zero_division)
      None None PNone false true Samples.empty_store
    = (Ok (DryRun args), s')
    ∧ tags args = [PStr "a"; PNone].
Proof. eexists _, _. split; reflexivity. Qed.

(** The same call, sent: the envelope has the tags ["a", null]. *)
Example tags_omitted_in_envelope :
  ∃ request evs,
    events (StackSentinelClient.handle_exception Samples.python37
              (Samples.sample_client (Some [PStr "a"]))
              (Some Samples.zero_division) None None PNone false false
              Samples.empty_store).2
    = EvUrlopen request :: evs
    ∧ match req_data request with
      | JObj m =>
          match jobj_get "errors" m with
          | Some (JArr [JObj error]) => jobj_get "tags" error
          | _ => None
          end
      | _ => None
      end = Some (JArr [JStr "a"; JNull]).
Proof. eexists _, _. split; reflexivity. Qed.

Lemma events_not_cons (ev : event) (evs : list event) : evs ≠ ev :: evs.
Proof.
  intros H. apply (f_equal length) in H. cbn in H. lia.
Qed.

Section HandleExceptionState.
Import StackSentinelClient.
Variable w : runtime.
Variable self : StackSentinelClient.t.

(** A call that returns went through [collect_send_error_args]; what
    follows it leaves the dictionaries alone. *)
Lemma handle_exception_ok_inv handling exc_info caller_state call_tags rfu
    dry_run s r s' :
  handle_exception w self handling exc_info caller_state call_tags rfu
    dry_run s = (Ok r, s') →
  ∃ args s1,
    collect_send_error_args w self handling exc_info caller_state call_tags
      rfu s = (Ok args, s1)
    ∧ heap s' = heap s1
    ∧ (∀ args', r = DryRun args' → args' = args).
Proof.
  rewrite handle_exception_run.
  destruct (collect_send_error_args _ _ _ _ _ _ _ _) as [[args|e] s1];
    [|discriminate].
  intros Hrun. exists args, s1. split; [done|].
  destruct dry_run.
  - inversion Hrun; subst. split; [done|]. by intros ? [= ->].
  - pose proof (send_error_store w self args s1) as [Hheap _].
    revert Hrun Hheap. mrun.
    destruct (send_error w self args s1) as [[v|e] s2]; [|discriminate].
    intros [= <- <-] Hheap. split; [done|]. discriminate.
Qed.

(** [populate_sys] touches no key but ['sys']. *)
Lemma populate_sys_lookup (a : nat) (s : store) (d : pydict) :
  heap s !! a = Some d →
  ∃ d2, heap (populate_sys w a s).2 !! a = Some d2
        ∧ dict_mem (KStr "machine") d2 = dict_mem (KStr "machine") d.
Proof.
  intros Hd. rewrite populate_sys_run. cbn [snd].
  destruct (dict_mem _ (deref a s)); [by exists d|].
  eexists. cbn. rewrite list_lookup_alter_eq, Hd. split; [reflexivity|].
  unfold dict_mem. by rewrite dict_get_set_ne.
Qed.

End HandleExceptionState.

(** C6.  When the caller's [state] already has the key ['sys'] or
    ['machine'], the value stays what the caller put: in the caller's
    dictionary, which is the one the bundle of a dry run refers to, and in
    the envelope of every request sent, whose [state] holds that very
    value under the key.  Nothing is populated over it. *)
Theorem caller_sys_machine_win
    (w : runtime) (self : StackSentinelClient.t) (handling : option exnobj)
    (exc_info : option exc_triple) (a : nat) (call_tags : pyval)
    (rfu dry_run : bool) (s : store) (k : pykey) (v : pyval) :
  k = KStr "sys" ∨ k = KStr "machine" →
  dict_get k (deref a s) = Some v →
  let r := StackSentinelClient.handle_exception w self handling exc_info
             (Some a) call_tags rfu dry_run s in
  dict_get k (deref a r.2) = Some v
  ∧ (∀ args, r.1 = Ok (DryRun args) →
       state args = a ∧ dict_get k (deref (state args) r.2) = Some v)
  ∧ (∀ request, events r.2 = EvUrlopen request :: events s →
       ∃ envelope d,
         json_dumps StackSentinelClient._serialize_object envelope
         = Ok (req_data request)
         ∧ envelope_state envelope = Some (PDict d)
         ∧ dict_get k d = Some v).
Proof.
  intros _ Hv r.
  pose proof (handle_exception_keeps w self handling exc_info a call_tags rfu
                dry_run s) as [_ Hkeep].
  fold r in Hkeep. specialize (Hkeep k v Hv).
  split; [exact Hkeep|].
  pose proof (handle_exception_run w self handling exc_info (Some a)
                call_tags rfu dry_run s) as Hrun.
  fold r in Hrun.
  pose proof (collect_send_error_args_events w self handling exc_info
                (Some a) call_tags rfu s) as Hev.
  pose proof (collect_send_error_args_keeps w self handling exc_info a
                call_tags rfu s) as (_ & _ & Hk1).
  destruct (StackSentinelClient.collect_send_error_args _ _ _ _ _ _ _ _)
    as [[args|e] s1] eqn:Hc; cbn [snd] in Hev, Hk1.
  2:{ rewrite Hrun. cbn. split; [discriminate|].
      intros request Hreq. rewrite Hev in Hreq.
      by apply events_not_cons in Hreq. }
  apply collect_send_error_args_ok in Hc
    as (s0 & _ & _ & _ & _ & Hres & _).
  cbn in Hres. injection Hres as Ha _.
  destruct dry_run.
  - rewrite Hrun. cbn [fst snd]. split.
    + intros args' [= <-]. split; [done|]. rewrite <- Ha. by apply Hk1.
    + intros request Hreq. rewrite Hev in Hreq.
      by apply events_not_cons in Hreq.
  - split.
    + rewrite Hrun. mrun.
      destruct (StackSentinelClient.send_error w self args s1) as [[?|?] ?];
        discriminate.
    + intros request Hreq.
      assert (r.2 = (StackSentinelClient.send_error w self args s1).2) as Hr2.
      { rewrite Hrun. apply reply_wrap_store. }
      rewrite Hr2 in Hreq.
      destruct (send_error_store w self args s1) as [_ [Hnone|Hsent]].
      * rewrite Hnone, Hev in Hreq. by apply events_not_cons in Hreq.
      * destruct Hsent as (request' & Hevs & Hdump).
        rewrite Hevs, Hev in Hreq. injection Hreq as <-.
        eexists _, _. split; [exact Hdump|]. split; [reflexivity|].
        rewrite <- Ha. by apply Hk1.
Qed.

(** C6 on a caller whose [state] has ['sys'] set to ['mine']. *)
Lemma caller_sys_machine_win_witness :
  let s := Store [[(KStr "sys", PStr "mine")]] [] in
  let r := StackSentinelClient.handle_exception Samples.python37
             (Samples.sample_client None) (Some Samples.zero_division) None
             (Some 0%nat) PNone false false s in
  dict_get (KStr "sys") (deref 0 s) = Some (PStr "mine")
  ∧ dict_get (KStr "sys") (deref 0 r.2) = Some (PStr "mine")
  ∧ ∃ request envelope d,
      events r.2 = EvUrlopen request :: events s
      ∧ json_dumps StackSentinelClient._serialize_object envelope
        = Ok (req_data request)
      ∧ envelope_state envelope = Some (PDict d)
      ∧ dict_get (KStr "sys") d = Some (PStr "mine").
Proof.
  intros s r.
  destruct (caller_sys_machine_win Samples.python37 (Samples.sample_client None)
              (Some Samples.zero_division) None 0%nat PNone false false s
              (KStr "sys") (PStr "mine") (or_introl eq_refl) eq_refl)
    as (Hkept & _ & Hsent).
  split; [reflexivity|]. split; [exact Hkept|].
  destruct (Hsent _ eq_refl) as (envelope & d & H1 & H2 & H3).
  eexists _, envelope, d. split; [reflexivity|]. by repeat split.
Defined.

(** C8.  A call with [dry_run] true performs no [urlopen]: the events
    are those before the call.  When it returns, it returns the bundle
    [send_error_args], and the same call with [dry_run] false is
    [send_error] run on exactly this bundle from the store the dry run
    leaves; when it raises, the same call with [dry_run] false raises the
    same exception before sending anything. *)
Theorem dry_run_sends_nothing
    (w : runtime) (self : StackSentinelClient.t) (handling : option exnobj)
    (exc_info : option exc_triple) (caller_state : option nat)
    (call_tags : pyval) (rfu : bool) (s : store) :
  let dry := StackSentinelClient.handle_exception w self handling exc_info
               caller_state call_tags rfu true s in
  let wet := StackSentinelClient.handle_exception w self handling exc_info
               caller_state call_tags rfu false s in
  events dry.2 = events s
  ∧ requests (events dry.2) = requests (events s)
  ∧ match dry.1 with
    | Ok (DryRun args) =>
        wet = (v ← StackSentinelClient.send_error w self args; mret (Reply v))
                dry.2
    | Ok (Reply _) => False
    | Raise e => wet = (Raise e, dry.2)
    end.
Proof.
  cbn zeta. rewrite !handle_exception_run.
  pose proof (collect_send_error_args_events w self handling exc_info
                caller_state call_tags rfu s) as Hev.
  destruct (StackSentinelClient.collect_send_error_args _ _ _ _ _ _ _ _)
    as [[args|e] s1]; cbn [fst snd] in *; by rewrite Hev.
Qed.

(** C10.  [handle_exception] works on the caller's own dictionary.  When
    a call given the dictionary at [a] returns, no dictionary was created,
    the bundle of a dry run refers to [a] itself, every entry the caller
    had is still there, and the keys ['sys'] and ['machine'] that were
    missing are now in the dictionary at [a], where the caller sees
    them. *)
Theorem handle_exception_fills_callers_state
    (w : runtime) (self : StackSentinelClient.t) (handling : option exnobj)
    (exc_info : option exc_triple) (a : nat) (d : pydict) (call_tags : pyval)
    (rfu dry_run : bool) (s s' : store) (r : handled) :
  heap s !! a = Some d →
  StackSentinelClient.handle_exception w self handling exc_info (Some a)
    call_tags rfu dry_run s = (Ok r, s') →
  length (heap s') = length (heap s)
  ∧ (∀ args, r = DryRun args → state args = a)
  ∧ (∀ k v, dict_get k d = Some v → dict_get k (deref a s') = Some v)
  ∧ (dict_mem (KStr "sys") d = false →
       dict_get (KStr "sys") (deref a s')
       = Some (StackSentinelClient._get_sys_info w))
  ∧ (dict_mem (KStr "machine") d = false →
       ∃ v, StackSentinelClient._get_machine_info w = Ok v
            ∧ dict_get (KStr "machine") (deref a s') = Some v).
Proof.
  intros Hd Hrun.
  pose proof (handle_exception_keeps w self handling exc_info a call_tags rfu
                dry_run s) as [Hlen Hkeep].
  rewrite Hrun in Hlen, Hkeep. cbn [snd] in Hlen, Hkeep.
  rewrite (deref_lookup a s d Hd) in Hkeep.
  apply handle_exception_ok_inv in Hrun
    as (args & s1 & Hc & Hheap & Hdry).
  apply collect_send_error_args_ok in Hc
    as (s0 & s2 & _ & _ & _ & Hres & Hsys & Hmach & _).
  cbn in Hres. injection Hres as Ha <-.
  assert (deref a s' = deref a s1) as Hderef by (unfold deref; by rewrite Hheap).
  rewrite <- Ha in Hsys, Hmach.
  repeat split; [done| |done| |].
  - intros args' ->. by rewrite (Hdry args' eq_refl).
  - intros Hno. rewrite Hderef.
    destruct (populate_machine_keeps w a s2) as (_ & _ & Hk).
    rewrite Hmach in Hk. cbn [snd] in Hk. apply Hk.
    pose proof (populate_sys_adds w a s d Hd) as Hadd.
    rewrite Hsys, Hno in Hadd. exact Hadd.
  - intros Hno. rewrite Hderef.
    destruct (populate_sys_lookup w a s d Hd) as (d2 & Hd2 & Hmem).
    rewrite Hsys in Hd2. cbn [snd] in Hd2.
    pose proof (populate_machine_adds w a s2 s1 d2 Hd2 Hmach) as Hadd.
    by rewrite Hmem, Hno in Hadd.
Qed.

(** C10 on a caller whose [state] has only the key ['form']. *)
Lemma handle_exception_fills_callers_state_witness :
  let s := Store [[(KStr "form", PStr "x=1")]] [] in
  ∃ args s',
    heap s !! 0%nat = Some [(KStr "form", PStr "x=1")]
    ∧ StackSentinelClient.handle_exception Samples.python37
        (Samples.sample_client None) (Some Samples.zero_division) None
        (Some 0%nat) PNone false true s = (Ok (DryRun args), s')
    ∧ length (heap s') = 1%nat
    ∧ state args = 0%nat
    ∧ dict_get (KStr "form") (deref 0 s') = Some (PStr "x=1")
    ∧ dict_get (KStr "sys") (deref 0 s')
      = Some (StackSentinelClient._get_sys_info Samples.python37)
    ∧ dict_mem (KStr "machine") (deref 0 s') = true.
Proof.
  intros s. eexists _, _.
  split; [reflexivity|]. split; [reflexivity|].
  destruct (handle_exception_fills_callers_state Samples.python37
              (Samples.sample_client None) (Some Samples.zero_division) None
              0%nat _ PNone false true s _ _ eq_refl eq_refl)
    as (Hlen & Hstate & Hkeep & Hsys & Hmach).
  split; [exact Hlen|]. split; [by apply Hstate|].
  split; [by apply Hkeep|]. split; [by apply Hsys|].
  destruct (Hmach eq_refl) as (v & _ & Hv).
  exact (dict_mem_get _ _ _ Hv).
Defined.

(** ** The envelope *)

Lemma tags_or_empty (tgs : list pyval) :
  match tgs with [] => [] | _ => tgs end = tgs.
Proof. by destruct tgs. Qed.






(** The two other ways for the encoder to fail: a [state] that holds
    itself, and one nested deeper than the stack allows.  In both the
    dictionary keys are strings. *)
Example generate_request_fails_on_circular_state :
  json_keys_ok (PDict (deref 0 Samples.holds_itself)) = true
  ∧ StackSentinelClient._generate_request Samples.python37
      (Samples.sample_client None)
      "devel" "boom" "ValueError" false 0 [] [] Samples.holds_itself
    = (Raise (ValueError "Circular reference detected"), Samples.holds_itself).
Proof. split; reflexivity. Qed.

Example generate_request_fails_on_deep_state :
  json_keys_ok (PDict (deref 0 Samples.deeply_nested)) = true
  ∧ acyclic (PDict (deref 0 Samples.deeply_nested)) = true
  ∧ (StackSentinelClient._generate_request Samples.python37
       (Samples.sample_client None)
       "devel" "boom" "ValueError" false 0 [] [] Samples.deeply_nested).1
    = Raise RecursionError.
Proof. split; [|split]; vm_compute; reflexivity. Qed.

(** A client whose endpoint has no scheme: [Request] of Python 3 rejects
    it, whatever the [state]. *)
Example generate_request_fails_on_endpoint :
  (StackSentinelClient._generate_request Samples.python37
     (StackSentinelClient.__init__ "account" "project" "devel" None
        "api.stacksentinel.com/api/v1/insert")
     "devel" "boom" "ValueError" false 0 [] [] Samples.with_objects).1
  = Raise (ValueError
             "unknown url type: 'api.stacksentinel.com/api/v1/insert'").
Proof. reflexivity. Qed.

(** ** Calls of [close] *)

Lemma quiet_ret {A} (a : A) : quiet (mret a : M A).
Proof. by intros s. Qed.

Lemma quiet_lift {A} (r : result A) : quiet (lift r).
Proof. by intros s. Qed.

Lemma quiet_raise {A} (e : exnobj) : quiet (@raise A e).
Proof. by intros s. Qed.

Lemma quiet_bind {A B} (m : M A) (f : A → M B) :
  quiet m → (∀ a, quiet (f a)) → quiet (m ≫= f).
Proof.
  intros Hm Hf s. specialize (Hm s). mrun.
  destruct (m s) as [[a|e] s1]; cbn [snd] in *; [|done].
  by rewrite (Hf a s1).
Qed.

Lemma quiet_try_Exception {A} (m : M A) (h : exnobj → M A) :
  quiet m → (∀ e, quiet (h e)) → quiet (try_Exception m h).
Proof.
  intros Hm Hh s. specialize (Hm s). unfold try_Exception.
  destruct (m s) as [[a|e] s1]; cbn [snd] in *; [done|].
  destruct (e_is_Exception e); [|done].
  by rewrite (Hh e s1).
Qed.

Lemma quiet_yield (v : pyval) : quiet (emit (EvYield v)).
Proof. by intros s. Qed.

Lemma quiet_new_dict (d : pydict) : quiet (new_dict d).
Proof. by intros s. Qed.

Lemma quiet_handle_exception w self handling exc_info caller_state call_tags
    rfu dry_run :
  quiet (StackSentinelClient.handle_exception w self handling exc_info
           caller_state call_tags rfu dry_run).
Proof.
  intros s. rewrite handle_exception_run.
  pose proof (collect_send_error_args_events w self handling exc_info
                caller_state call_tags rfu s) as Hev.
  destruct (StackSentinelClient.collect_send_error_args _ _ _ _ _ _ _ _)
    as [[args|e] s1]; cbn [snd] in *; [|by rewrite Hev].
  destruct dry_run; [cbn [snd]; by rewrite Hev|].
  rewrite reply_wrap_store.
  destruct (send_error_store w self args s1) as [_ [->|(request & -> & _)]];
    by rewrite Hev.
Qed.

Section Middleware.
Import StackSentinelMiddleware.
Variable w : runtime.
Variable self : StackSentinelMiddleware.t.

Lemma quiet_report (e : exnobj) (environ : pyval) :
  quiet (report w self e environ).
Proof.
  apply quiet_bind; [apply quiet_new_dict|].
  intros a. apply quiet_handle_exception.
Qed.

Lemma quiet_report_raise {A} (e : exnobj) (environ : pyval) :
  quiet (report w self e environ;; @raise A e).
Proof.
  apply quiet_bind; [apply quiet_report|]. intros _. apply quiet_raise.
Qed.

Lemma quiet_for_yield (items : list pyval) (raises : option exnobj)
    (more : option nat) :
  quiet (for_yield items raises more).
Proof.
  revert more. induction items as [|i items IH]; intros more; cbn [for_yield].
  - destruct raises; [apply quiet_raise|apply quiet_ret].
  - apply quiet_bind; [apply quiet_yield|]. intros _.
    destruct more as [[|k]|]; [apply quiet_raise|apply IH..].
Qed.

(** A consumer that asks for enough items gets them all and meets the
    end of the iteration. *)
Lemma for_yield_run (items : list pyval) (raises : option exnobj)
    (more : option nat) (s : store) :
  asks_for more (length items) →
  for_yield items raises more s
  = (match raises with None => Ok tt | Some e => Raise e end,
     yielded items s).
Proof.
  revert more s. induction items as [|i items IH]; intros more s Hmore.
  - destruct s. by destruct raises.
  - cbn [for_yield]. mrun.
    assert (yielded (i :: items) s
            = yielded items (Store (heap s) (EvYield i :: events s))) as ->.
    { unfold yielded. cbn. by rewrite <- app_assoc. }
    destruct more as [[|k]|]; cbn in Hmore.
    + lia.
    + apply IH. cbn. lia.
    + by apply IH.
Qed.

(** The [close] of the response: one call when it has one. *)
Lemma close_result_closes (result : option response) (s : store) :
  closes (events (close_result result s).2)
  = (closes (events s)
     + match result with
       | Some r => match r_close r with Some _ => 1 | None => 0 end
       | None => 0
       end)%nat.
Proof.
  destruct result as [r|]; cbn; [|lia].
  destruct (r_close r) as [outcome|]; mrun; cbn; lia.
Qed.

End Middleware.

(** ** The middleware *)

(** The handler of both [except Exception] clauses: the report, then
    [raise].  It never returns; it raises the exception being handled when
    the report returns, and the exception of the report otherwise. *)
Lemma report_then_raise {A} (w : runtime) (self : StackSentinelMiddleware.t)
    (e : exnobj) (environ : pyval) (s : store) :
  (StackSentinelMiddleware.report w self e environ;; @raise A e) s
  = (match (StackSentinelMiddleware.report w self e environ s).1 with
     | Ok _ => Raise e
     | Raise e' => Raise e'
     end,
     (StackSentinelMiddleware.report w self e environ s).2).
Proof.
  mrun. by destruct (StackSentinelMiddleware.report w self e environ s)
    as [[r|e'] s1].
Qed.

(** C9.  The number of calls of [close] that a run of the middleware
    adds is one when the application returned a response that has a
    [close], whether the iteration ends, raises, or is abandoned by the
    consumer, and whether or not the report succeeds; it is zero when the
    application raised or returned [None], there being no response then,
    and when the generator was never started. *)
Theorem middleware_closes_once
    (w : runtime) (self : StackSentinelMiddleware.t) (environ : pyval)
    (takes : option nat) (s : store) :
  closes (events (StackSentinelMiddleware.__call__ w self environ takes s).2)
  = (closes (events s)
     + match takes with
       | Some O => 0
       | _ =>
           match StackSentinelMiddleware.app self environ with
           | Ok (Some r) =>
               match StackSentinelMiddleware.r_close r with
               | Some _ => 1
               | None => 0
               end
           | _ => 0
           end
       end)%nat.
Proof.
  unfold StackSentinelMiddleware.__call__.
  assert (∀ more,
    closes (events
      ((result ← try_Exception (lift (StackSentinelMiddleware.app self environ))
                   (λ e, StackSentinelMiddleware.report w self e environ;;
                         raise e);
        try_finally
          (try_Exception
             match result with
             | Some r =>
                 StackSentinelMiddleware.for_yield
                   (StackSentinelMiddleware.r_items r)
                   (StackSentinelMiddleware.r_raises r) more
             | None => mret tt
             end
             (λ e, StackSentinelMiddleware.report w self e environ;; raise e))
          (StackSentinelMiddleware.close_result result)) s).2)
    = (closes (events s)
       + match StackSentinelMiddleware.app self environ with
         | Ok (Some r) =>
             match StackSentinelMiddleware.r_close r with
             | Some _ => 1
             | None => 0
             end
         | _ => 0
         end)%nat) as Hstarted.
  { intros more. mrun. unfold try_Exception at 1. mrun.
    destruct (StackSentinelMiddleware.app self environ) as [result|e].
    - unfold try_finally.
      match goal with
      | |- context [try_Exception ?m ?h s] =>
          pose proof (quiet_try_Exception m h) as Hq;
          destruct (try_Exception m h s) as [r1 s1] eqn:Hrun
      end.
      assert (closes (events s1) = closes (events s)) as Hs1.
      { specialize (Hq ltac:(destruct result;
                               [apply quiet_for_yield|apply quiet_ret])
                       ltac:(intros; apply quiet_report_raise) s).
        by rewrite Hrun in Hq. }
      pose proof (close_result_closes result s1) as Hclose.
      destruct (StackSentinelMiddleware.close_result result s1) as [[[]|ec] s2];
        cbn [snd] in *; rewrite Hclose, Hs1; by destruct result.
    - destruct (e_is_Exception e); [|cbn; lia].
      rewrite report_then_raise.
      pose proof (quiet_report w self e environ s) as Hq.
      destruct (StackSentinelMiddleware.report w self e environ s)
        as [[r|e'] s1]; cbn [fst snd] in *; lia. }
  destruct takes as [[|k]|]; [cbn; lia|apply Hstarted..].
Qed.

(** The run of the generator, part by part. *)
Section MiddlewareRuns.
Import StackSentinelMiddleware.
Variable w : runtime.
Variable self : StackSentinelMiddleware.t.
Variable environ : pyval.

(** A generator that was started runs the body of [__call__]. *)
Lemma call_started (takes : option nat) (s : store) :
  takes ≠ Some O →
  __call__ w self environ takes s
  = match app self environ with
    | Raise e =>
        if e_is_Exception e
        then (report w self e environ;; raise e) s
        else (Raise e, s)
    | Ok result =>
        try_finally
          (try_Exception
             match result with
             | Some r =>
                 for_yield (r_items r) (r_raises r)
                   match takes with Some (S k) => Some k | _ => None end
             | None => mret tt
             end
             (λ e, report w self e environ;; raise e))
          (close_result result) s
    end.
Proof.
  intros Htakes. unfold __call__.
  destruct takes as [[|k]|]; [done|..];
    mrun; unfold try_Exception at 1; mrun;
    (destruct (app self environ) as [result|e]; [reflexivity|]);
    (destruct (e_is_Exception e); [|reflexivity]);
    mrun; by destruct (report w self e environ s) as [[v|e'] s1].
Qed.

(** The [finally] clause over a response. *)
Lemma close_result_run (r : response) (s : store) :
  close_result (Some r) s
  = (match r_close r with Some outcome => outcome | None => Ok tt end,
     Store (heap s) (close_events r ++ events s)).
Proof.
  unfold close_result, close_events.
  destruct (r_close r) as [outcome|]; mrun; [reflexivity|by destruct s].
Qed.

(** A consumer that closes the generator after [k + 1] items stops the
    iteration at the [yield] of the last of them. *)
Lemma for_yield_closed (items : list pyval) (raises : option exnobj)
    (k : nat) (s : store) :
  (k < length items)%nat →
  for_yield items raises (Some k) s
  = (Raise GeneratorExit, yielded (take (S k) items) s).
Proof.
  revert k s. induction items as [|i items IH]; intros k s Hk; cbn in Hk;
    [lia|].
  cbn [for_yield]. mrun. destruct k as [|k].
  - reflexivity.
  - rewrite IH by lia. f_equal. unfold yielded. cbn.
    by rewrite <- app_assoc.
Qed.

End MiddlewareRuns.

(** C5 fails as stated.  The application raises [ValueError("boom")]
    and the service answers the report with 400: what leaves the
    middleware is the [StackSentinelError] of the report, not the
    exception of the application. *)
Lemma middleware_masks_when_report_fails :
  (StackSentinelMiddleware.__call__ Samples.bad_token Samples.raising_app
     Samples.environ None Samples.empty_store).1
  = Raise (StackSentinelError (PStr "bad token"))
  ∧ (StackSentinelMiddleware.__call__ Samples.bad_token Samples.raising_app
       Samples.environ None Samples.empty_store).1
    ≠ Raise Samples.boom.
Proof. split; [reflexivity|discriminate]. Qed.

(** C5, amended.  Let the application raise [e], on being called or
    from the [for] statement over its response after the items the
    consumer asked for.  When [e] derives from [Exception] the body of
    the generator makes one call of [handle_exception], with a new
    [state] that holds the request under ['wsgi_environ'], and the call
    is not guarded: the outcome of the body is [e] itself when the report
    returns and the exception of the report otherwise, and the store is
    the one this single call leaves.  When [e] does not derive from
    [Exception] the body raises [e] and the store is the one before: there
    is no report.  On the iteration path the items were yielded before
    the report, the [close] of the response is the last event, and an
    exception of [close] replaces the outcome.  What the consumer of the
    generator gets when the report returns (and [close] does not raise)
    is [e] itself, unless [e] is a [StopIteration] and the interpreter
    applies PEP 479: then it is a [RuntimeError]. *)
Theorem middleware_reraises_after_report
    (w : runtime) (self : StackSentinelMiddleware.t) (environ : pyval)
    (takes : option nat) (s : store) (e : exnobj) :
  takes ≠ Some O →
  let reported (s0 : store) : result unit * store :=
    if e_is_Exception e
    then (match (StackSentinelMiddleware.report w self e environ s0).1 with
          | Ok _ => Raise e
          | Raise e' => Raise e'
          end,
          (StackSentinelMiddleware.report w self e environ s0).2)
    else (Raise e, s0) in
  let report_returns (s0 : store) : Prop :=
    e_is_Exception e = true →
    ∃ h, (StackSentinelMiddleware.report w self e environ s0).1 = Ok h in
  let reraised : result unit :=
    if generator_stop w && e_is_StopIteration e
    then Raise (RuntimeError "generator raised StopIteration")
    else Raise e in
  (StackSentinelMiddleware.app self environ = Raise e →
     StackSentinelMiddleware.__call__ w self environ takes s = reported s
     ∧ (report_returns s →
        StackSentinelMiddleware.next_outcome w
          (StackSentinelMiddleware.__call__ w self environ takes s).1
        = reraised))
  ∧ (∀ r,
       StackSentinelMiddleware.app self environ = Ok (Some r) →
       StackSentinelMiddleware.r_raises r = Some e →
       asks_for match takes with Some (S k) => Some k | _ => None end
         (length (StackSentinelMiddleware.r_items r)) →
       StackSentinelMiddleware.__call__ w self environ takes s
       = (after_close r
            (reported (yielded (StackSentinelMiddleware.r_items r) s)).1,
          Store
            (heap (reported (yielded (StackSentinelMiddleware.r_items r) s)).2)
            (close_events r
             ++ events
                  (reported (yielded (StackSentinelMiddleware.r_items r) s)).2))
       ∧ (report_returns (yielded (StackSentinelMiddleware.r_items r) s) →
          (∀ closing,
             StackSentinelMiddleware.r_close r ≠ Some (Raise closing)) →
          StackSentinelMiddleware.next_outcome w
            (StackSentinelMiddleware.__call__ w self environ takes s).1
          = reraised)).
Proof.
  intros Htakes reported report_returns reraised.
  assert (∀ s0, report_returns s0 → (reported s0).1 = Raise e) as Hreturns.
  { intros s0 Hret. unfold reported, report_returns in *.
    destruct (e_is_Exception e); [|reflexivity].
    destruct (Hret eq_refl) as [h Hh]. cbn [fst]. by rewrite Hh. }
  split.
  - intros Happ.
    assert (StackSentinelMiddleware.__call__ w self environ takes s
            = reported s) as Hrun.
    { rewrite call_started by done. rewrite Happ. unfold reported.
      destruct (e_is_Exception e); [|reflexivity].
      apply report_then_raise. }
    split; [exact Hrun|].
    intros Hret. rewrite Hrun, (Hreturns s Hret). reflexivity.
  - intros r Happ Hraises Hasks.
    assert (StackSentinelMiddleware.__call__ w self environ takes s
            = (after_close r
                 (reported (yielded (StackSentinelMiddleware.r_items r) s)).1,
               Store
                 (heap (reported
                          (yielded (StackSentinelMiddleware.r_items r) s)).2)
                 (close_events r
                  ++ events
                       (reported
                          (yielded (StackSentinelMiddleware.r_items r) s)).2)))
      as Hrun.
    { rewrite call_started by done. rewrite Happ.
      unfold try_finally, try_Exception.
      rewrite (for_yield_run _ _ _ s Hasks), Hraises.
      unfold reported, after_close.
      destruct (e_is_Exception e).
      - rewrite report_then_raise, close_result_run.
        destruct (StackSentinelMiddleware.report w self e environ _)
          as [[v|e'] s1]; cbn [fst snd];
          destruct (StackSentinelMiddleware.r_close r) as [[[]|closing]|];
          reflexivity.
      - rewrite close_result_run. cbn [fst snd].
        destruct (StackSentinelMiddleware.r_close r) as [[[]|closing]|];
          reflexivity. }
    split; [exact Hrun|].
    intros Hret Hclose. rewrite Hrun. cbn [fst].
    rewrite (Hreturns _ Hret). unfold after_close.
    destruct (StackSentinelMiddleware.r_close r) as [[[]|closing]|];
      [reflexivity| |reflexivity].
    by destruct (Hclose closing).
Qed.

(** The amended C5 on the Python 3.7 host, where the report returns.  An
    application that raises [StopIteration] on being called: the body of
    the generator reports it, one request is sent, and raises it again;
    the consumer of the generator gets a [RuntimeError]. *)
Lemma middleware_reraises_after_report_witness :
  (None : option nat) ≠ Some O
  ∧ StackSentinelMiddleware.app Samples.stopping_app Samples.environ
    = Raise Samples.stop_iteration
  ∧ (e_is_Exception Samples.stop_iteration = true →
     ∃ h, (StackSentinelMiddleware.report Samples.python37
             Samples.stopping_app Samples.stop_iteration Samples.environ
             Samples.empty_store).1 = Ok h)
  ∧ (StackSentinelMiddleware.__call__ Samples.python37 Samples.stopping_app
       Samples.environ None Samples.empty_store).1
    = Raise Samples.stop_iteration
  ∧ length (requests (events
      (StackSentinelMiddleware.__call__ Samples.python37 Samples.stopping_app
         Samples.environ None Samples.empty_store).2)) = 1%nat
  ∧ StackSentinelMiddleware.next_outcome Samples.python37
      (StackSentinelMiddleware.__call__ Samples.python37 Samples.stopping_app
         Samples.environ None Samples.empty_store).1
    = Raise (RuntimeError "generator raised StopIteration").
Proof.
  assert ((None : option nat) ≠ Some O) as Htakes by discriminate.
  assert (StackSentinelMiddleware.app Samples.stopping_app Samples.environ
          = Raise Samples.stop_iteration) as Happ by reflexivity.
  assert (e_is_Exception Samples.stop_iteration = true →
          ∃ h, (StackSentinelMiddleware.report Samples.python37
                  Samples.stopping_app Samples.stop_iteration Samples.environ
                  Samples.empty_store).1 = Ok h) as Hret.
  { intros _. eexists. vm_compute. reflexivity. }
  destruct (proj1 (middleware_reraises_after_report Samples.python37
                     Samples.stopping_app Samples.environ None
                     Samples.empty_store Samples.stop_iteration Htakes) Happ)
    as [Hrun Hnext].
  split; [exact Htakes|]. split; [exact Happ|]. split; [exact Hret|].
  split; [rewrite Hrun; vm_compute; reflexivity|].
  split; [rewrite Hrun; vm_compute; reflexivity|].
  exact (Hnext Hret).
Defined.

(** The same on the iteration path: the application of the scenario
    below raises [ValueError("boom")] from its second item; the consumer
    gets this exception, after the report and the [close]. *)
Example middleware_reraises_from_iteration :
  StackSentinelMiddleware.next_outcome Samples.python37
    (StackSentinelMiddleware.__call__ Samples.python37 Samples.breaking_app
       Samples.environ None Samples.empty_store).1
  = Raise Samples.boom.
Proof. reflexivity. Qed.

(** The scenario of an application that fails on the second item of its
    response: the first item is yielded, one report is sent whose
    [state] has [wsgi_environ], the response is closed once, and
    [ValueError("boom")] leaves the middleware. *)
Example middleware_scenario :
  ∃ request h,
    StackSentinelMiddleware.__call__ Samples.python37 Samples.breaking_app
      Samples.environ None Samples.empty_store
    = (Raise Samples.boom,
       Store h [EvClose; EvUrlopen request; EvYield (PStr "<html>")])
    ∧ (d ← h !! 0%nat; dict_get (KStr "wsgi_environ") d)
      = Some Samples.environ.
Proof. eexists _, _. split; reflexivity. Qed.

(** * Further properties of the code *)

(** ** The traceback walk *)

(** X1.  The [while] loop of [handle_exception] turns the chain into one
    dictionary per entry, in the order of the chain, after what [new_tb]
    held; with a limit it stops after [limit - n] entries, and with the
    limit [None] that the code sets it takes them all. *)
Theorem walk_tb_is_map (limit : option Z) (n : Z) (tb : list tb_entry)
    (new_tb : list pyval) :
  StackSentinelClient.walk_tb limit n tb new_tb
  = new_tb ++ map frame_info
                match limit with
                | None => tb
                | Some l => take (Z.to_nat (l - n)) tb
                end.
Proof.
  revert n new_tb. induction tb as [|entry tb IH]; intros n new_tb.
  - cbn. destruct limit; by rewrite ?take_nil, app_nil_r.
  - cbn [StackSentinelClient.walk_tb]. destruct limit as [l|].
    + destruct (n <? l) eqn:Hlt.
      * apply Z.ltb_lt in Hlt. rewrite IH, <- app_assoc.
        replace (Z.to_nat (l - n)) with (S (Z.to_nat (l - (n + 1)))) by lia.
        reflexivity.
      * apply Z.ltb_ge in Hlt.
        replace (Z.to_nat (l - n)) with O by lia.
        by rewrite app_nil_r.
    + by rewrite IH, <- app_assoc.
Qed.

(** ** What [handle_exception] returns *)

(** The walk without a limit, as [handle_exception] runs it. *)
Lemma walk_tb_unlimited (n : Z) (tb : list tb_entry) (new_tb : list pyval) :
  StackSentinelClient.walk_tb None n tb new_tb = new_tb ++ map frame_info tb.
Proof.
  revert n new_tb. induction tb as [|entry tb IH]; intros n new_tb; cbn.
  - by rewrite app_nil_r.
  - by rewrite IH, <- app_assoc.
Qed.

Lemma list_add_as_list (l : list pyval) (call_tags : pyval) :
  StackSentinelClient.list_add l
    match match call_tags with PList _ => call_tags | _ => PList [call_tags] end
    with
    | PNone => PList []
    | _ => match call_tags with PList _ => call_tags | _ => PList [call_tags] end
    end
  = Ok (l ++ as_list call_tags).
Proof. by destruct call_tags. Qed.

Lemma msg_of_handled (w : runtime) (e : exnobj) :
  e_args e ≠ [] ∨ (∃ r, repr w e = Ok r) →
  ∃ msg,
    try_except_all (StackSentinelClient.first_arg (Some e))
      (λ _, StackSentinelClient.repr_value w (Some e)) = Ok msg.
Proof.
  intros Hmsg. cbn. destruct (e_args e) as [|x l] eqn:Hargs; cbn.
  - destruct Hmsg as [Hne|[r Hr]]; [done|]. rewrite Hr. by eexists.
  - by eexists.
Qed.

(** X2.  Called in a handler with [exc_info] omitted, [handle_exception]
    returns on a dry run whenever the machine collector returns and the
    text of the exception can be taken ([str] on Python 3, [unicode] on
    Python 2; [repr] too when the exception has no argument).  The bundle
    has the class name of the exception as [error_type], its text as
    [error_message], one frame per entry of its traceback in order, the
    environment of the client, the caller's [state] (a new dictionary
    when omitted), and the client's tags followed by the call's. *)
Theorem handle_exception_dry_run_returns
    (w : runtime) (self : StackSentinelClient.t) (e : exnobj)
    (caller_state : option nat) (call_tags : pyval) (rfu : bool) (s : store)
    (v : pyval) (text : string) :
  StackSentinelClient._get_machine_info w = Ok v →
  e_args e ≠ [] ∨ (∃ r, repr w e = Ok r) →
  (if 2 <? version_info_major w then str w e else unicode w e) = Ok text →
  ∃ s',
    StackSentinelClient.handle_exception w self (Some e) None caller_state
      call_tags rfu true s
    = (Ok (DryRun
             {| error_type := e_class e;
                error_message := text;
                traceback := map frame_info (e_tb e);
                environment := StackSentinelClient.self_environment self;
                state := match caller_state with
                         | Some a => a
                         | None => length (heap s)
                         end;
                tags := StackSentinelClient.self_tags self ++ as_list call_tags;
                return_feedback_urls := rfu |}), s')
    ∧ events s' = events s.
Proof.
  intros Hmachine Hmsg Htext.
  destruct (msg_of_handled w e Hmsg) as [msg Hmsg'].
  rewrite handle_exception_run.
  unfold StackSentinelClient.collect_send_error_args.
  cbn [sys_exc_info]. mrun. rewrite Hmsg'. mrun.
  assert (∃ s1,
    match caller_state with Some a => mret a | None => new_dict [] end s
    = (Ok match caller_state with Some a => a | None => length (heap s) end, s1)
    ∧ events s1 = events s) as (s1 & -> & Hev1).
  { destruct caller_state; by eexists. }
  mrun. rewrite populate_sys_run. mrun. rewrite populate_machine_run, Hmachine.
  assert (StackSentinelClient.error_texts w (Some (e_class e)) (Some e)
          = Ok (e_class e, text)) as Htexts.
  { unfold StackSentinelClient.error_texts. cbn.
    destruct (2 <? version_info_major w); by rewrite Htext. }
  rewrite walk_tb_unlimited. cbn [app].
  destruct (dict_mem (KStr "machine") _); mrun; rewrite Htexts; mrun;
    rewrite list_add_as_list; mrun; eexists; (split; [reflexivity|]);
    cbn [events]; by destruct (dict_mem (KStr "sys") _).
Qed.

(** X2 on the Python 3.7 host, for [ZeroDivisionError] and one call tag. *)
Lemma handle_exception_dry_run_returns_witness :
  ∃ s',
    StackSentinelClient.handle_exception Samples.python37
      (Samples.sample_client (Some [PStr "web"]))
      (Some Samples.zero_division) None None (PStr "checkout") true true
      Samples.empty_store
    = (Ok (DryRun
             {| error_type := "ZeroDivisionError";
                error_message := "division by zero";
                traceback := [frame_info (TbEntry 15 "app.py" "<module>")];
                environment := "devel";
                state := 0%nat;
                tags := [PStr "web"; PStr "checkout"];
                return_feedback_urls := true |}), s')
    ∧ events s' = [].
Proof.
  assert (e_args Samples.zero_division ≠ []
          ∨ (∃ r, repr Samples.python37 Samples.zero_division = Ok r)) as Hmsg.
  { left. discriminate. }
  destruct (StackSentinelClient._get_machine_info Samples.python37)
    as [v|e0] eqn:Hmachine; [|discriminate Hmachine].
  destruct (handle_exception_dry_run_returns Samples.python37
              (Samples.sample_client (Some [PStr "web"]))
              Samples.zero_division None (PStr "checkout") true
              Samples.empty_store v "division by zero" Hmachine Hmsg eq_refl)
    as (s' & Hrun & Hev).
  exists s'. split; [exact Hrun|exact Hev].
Defined.

(** ** What [handle_exception] leaves alone *)

Lemma touches_refl (a : nat) (s : store) : touches_only_sys_machine a s s.
Proof. by split. Qed.

Lemma touches_trans (a : nat) (s1 s2 s3 : store) :
  touches_only_sys_machine a s1 s2 → touches_only_sys_machine a s2 s3 →
  touches_only_sys_machine a s1 s3.
Proof.
  intros [Hb1 Hk1] [Hb2 Hk2]. split.
  - intros b Hb. by rewrite Hb2, Hb1.
  - intros k Hs Hm. by rewrite Hk2, Hk1.
Qed.

Lemma touches_set (a : nat) (k : pykey) (v : pyval) (s : store) :
  k = KStr "sys" ∨ k = KStr "machine" →
  touches_only_sys_machine a s
    (Store (alter (dict_set k v) a (heap s)) (events s)).
Proof.
  intros Hk. split.
  - intros b Hb. cbn. by rewrite list_lookup_alter_ne.
  - intros k' Hs Hm. unfold deref. cbn. rewrite list_lookup_alter_eq.
    destruct (heap s !! a) as [d|]; cbn; [|done].
    apply dict_get_set_ne. by destruct Hk as [-> | ->].
Qed.

Lemma touches_events (a : nat) (s : store) (evs : list event) :
  touches_only_sys_machine a s (Store (heap s) evs).
Proof. by split. Qed.

Lemma populate_sys_touches (w : runtime) (a : nat) (s : store) :
  touches_only_sys_machine a s (StackSentinelClient.populate_sys w a s).2.
Proof.
  rewrite populate_sys_run. cbn [snd].
  destruct (dict_mem _ _); [apply touches_refl|].
  apply touches_set. by left.
Qed.

Lemma populate_machine_touches (w : runtime) (a : nat) (s : store) :
  touches_only_sys_machine a s (StackSentinelClient.populate_machine w a s).2.
Proof.
  rewrite populate_machine_run.
  destruct (dict_mem _ _); [apply touches_refl|].
  destruct (StackSentinelClient._get_machine_info w) as [v|e].
  - apply touches_set. by right.
  - destruct (e_is_Exception e); apply touches_refl.
Qed.

(** X3.  Given a [state], [handle_exception] changes no other
    dictionary, and in the caller's dictionary no key but ['sys'] and
    ['machine'], whether the call returns or raises, dry run or not. *)
Theorem handle_exception_touches_only_sys_machine
    (w : runtime) (self : StackSentinelClient.t) (handling : option exnobj)
    (exc_info : option exc_triple) (a : nat) (call_tags : pyval)
    (rfu dry_run : bool) (s : store) :
  touches_only_sys_machine a s
    (StackSentinelClient.handle_exception w self handling exc_info (Some a)
       call_tags rfu dry_run s).2.
Proof.
  rewrite handle_exception_run.
  assert (touches_only_sys_machine a s
            (StackSentinelClient.collect_send_error_args w self handling
               exc_info (Some a) call_tags rfu s).2) as Hcollect.
  { destruct (collect_send_error_args_store w self handling exc_info (Some a)
                call_tags rfu s) as [->|(a' & s1 & Hres & ->)];
      [apply touches_refl|].
    inversion Hres; subst a' s1.
    eapply touches_trans;
      [apply populate_sys_touches|apply populate_machine_touches]. }
  destruct (StackSentinelClient.collect_send_error_args _ _ _ _ _ _ _ _)
    as [[args|e] s1]; cbn [snd] in *; [|done].
  destruct dry_run; [done|].
  rewrite reply_wrap_store.
  destruct (send_error_store w self args s1) as [Hheap _].
  destruct Hcollect as [Hb Hk]. split.
  - intros b Hne. rewrite Hheap. by apply Hb.
  - intros k Hs Hm. unfold deref in *. rewrite Hheap. by apply Hk.
Qed.

Lemma alter_last (f : pydict → pydict) (h : list pydict) (d : pydict) :
  alter f (length h) (h ++ [d]) = h ++ [f d].
Proof. by rewrite <- (Nat.add_0_r (length h)), alter_app_r. Qed.

(** The two [populate] steps on a dictionary that was just created. *)
Lemma populate_sys_new (w : runtime) (h : list pydict) (evs : list event) :
  StackSentinelClient.populate_sys w (length h) (Store (h ++ [[]]) evs)
  = (Ok tt,
     Store (h ++ [[(KStr "sys", StackSentinelClient._get_sys_info w)]]) evs).
Proof.
  rewrite populate_sys_run, deref_new. cbn. by rewrite alter_last.
Qed.

Lemma populate_machine_new (w : runtime) (h : list pydict) (evs : list event)
    (x : pyval) :
  StackSentinelClient.populate_machine w (length h)
    (Store (h ++ [[(KStr "sys", x)]]) evs)
  = match StackSentinelClient._get_machine_info w with
    | Ok v =>
        (Ok tt, Store (h ++ [[(KStr "sys", x); (KStr "machine", v)]]) evs)
    | Raise e =>
        (Raise (if e_is_Exception e
                then StackSentinelClient.float_required w e else e),
         Store (h ++ [[(KStr "sys", x)]]) evs)
    end.
Proof.
  rewrite populate_machine_run, deref_new. cbn.
  destruct (StackSentinelClient._get_machine_info w) as [v|e].
  - by rewrite alter_last.
  - by destruct (e_is_Exception e).
Qed.

(** X4.  With [state] omitted, the dictionaries that exist are left as
    they are, whatever the outcome; when the call returns, there is one
    more dictionary, the [state] of the report, and it holds exactly
    ['sys'] and ['machine'], with what the two collectors returned. *)
Theorem handle_exception_makes_own_state
    (w : runtime) (self : StackSentinelClient.t) (handling : option exnobj)
    (exc_info : option exc_triple) (call_tags : pyval) (rfu dry_run : bool)
    (s : store) :
  let run := StackSentinelClient.handle_exception w self handling exc_info
               None call_tags rfu dry_run s in
  take (length (heap s)) (heap run.2) = heap s
  ∧ ∀ r, run.1 = Ok r →
      ∃ v, StackSentinelClient._get_machine_info w = Ok v
           ∧ heap run.2
             = heap s ++ [[(KStr "sys", StackSentinelClient._get_sys_info w);
                           (KStr "machine", v)]]
           ∧ ∀ args, r = DryRun args → state args = length (heap s).
Proof.
  cbn zeta. split.
  - assert (take (length (heap s))
              (heap (StackSentinelClient.collect_send_error_args w self
                       handling exc_info None call_tags rfu s).2) = heap s)
      as Htake.
    { destruct (collect_send_error_args_store w self handling exc_info None
                  call_tags rfu s) as [->|(a & s1 & Hres & ->)];
        [by rewrite take_ge|].
      rewrite new_dict_run in Hres. injection Hres as <- <-.
      rewrite populate_sys_new. cbn [snd]. rewrite populate_machine_new.
      destruct (StackSentinelClient._get_machine_info w) as [v|e];
        cbn; apply take_app_length. }
    rewrite handle_exception_run.
    destruct (StackSentinelClient.collect_send_error_args _ _ _ _ _ _ _ _)
      as [[args|e] s2]; cbn [snd] in *; [|done].
    destruct dry_run; [done|].
    rewrite reply_wrap_store.
    by destruct (send_error_store w self args s2) as [-> _].
  - intros r Hr.
    destruct (StackSentinelClient.handle_exception _ _ _ _ _ _ _ _ _)
      as [r' s'] eqn:Hrun. cbn [fst snd] in *. subst r'.
    apply handle_exception_ok_inv in Hrun as (args & s1 & Hc & Hheap & Hdry).
    apply collect_send_error_args_ok in Hc
      as (s0 & s2 & _ & _ & _ & Hres & Hssys & Hsmach & _).
    rewrite new_dict_run in Hres. injection Hres as Ha <-.
    rewrite <- Ha in Hssys, Hsmach.
    rewrite populate_sys_new in Hssys. injection Hssys as <-.
    rewrite populate_machine_new in Hsmach.
    destruct (StackSentinelClient._get_machine_info w) as [v|e];
      [|discriminate].
    injection Hsmach as <-. exists v. split; [done|]. split; [done|].
    intros args' Hargs. by rewrite (Hdry args' Hargs).
Qed.

(** X5.  When the caller's [state] lacks ['machine'] and the machine
    collector raises an [Exception], the handler meant to store a
    placeholder formats the exception with [%e], which raises
    [TypeError]: the call ends with that error and sends nothing. *)
Theorem handle_exception_machine_placeholder_raises
    (w : runtime) (self : StackSentinelClient.t) (handling : option exnobj)
    (etype : option string) (value : option exnobj) (tb : list tb_entry)
    (caller_state : option nat) (call_tags : pyval) (rfu dry_run : bool)
    (s : store) (msg : pyval) (e : exnobj) :
  try_except_all (StackSentinelClient.first_arg value)
    (λ _, StackSentinelClient.repr_value w value) = Ok msg →
  (∀ a, caller_state = Some a → dict_mem (KStr "machine") (deref a s) = false) →
  StackSentinelClient._get_machine_info w = Raise e →
  e_is_Exception e = true →
  let run := StackSentinelClient.handle_exception w self handling
               (Some (ExcTriple etype value tb)) caller_state call_tags rfu
               dry_run s in
  run.1 = Raise (StackSentinelClient.float_required w e)
  ∧ e_class (StackSentinelClient.float_required w e) = "TypeError"
  ∧ events run.2 = events s.
Proof.
  intros Hmsg Hlacks Hmachine Hexc. cbn zeta.
  rewrite handle_exception_run.
  unfold StackSentinelClient.collect_send_error_args.
  mrun. rewrite Hmsg. mrun.
  assert (∃ a s1,
    match caller_state with Some a => mret a | None => new_dict [] end s
    = (Ok a, s1) ∧ events s1 = events s
    ∧ dict_mem (KStr "machine") (deref a s1) = false) as (a & s1 & -> & Hev & Hno).
  { destruct caller_state as [a|].
    - exists a, s. repeat split. by apply Hlacks.
    - exists (length (heap s)), (Store (heap s ++ [[]]) (events s)).
      repeat split. by rewrite deref_new. }
  mrun. rewrite populate_sys_run. mrun. rewrite populate_machine_run.
  assert (dict_mem (KStr "machine")
            (deref a (if dict_mem (KStr "sys") (deref a s1) then s1
                      else Store (alter (dict_set (KStr "sys")
                                           (StackSentinelClient._get_sys_info w))
                                    a (heap s1)) (events s1))) = false) as ->.
  { destruct (dict_mem (KStr "sys") (deref a s1)); [done|].
    unfold deref in *. cbn. rewrite list_lookup_alter_eq.
    destruct (heap s1 !! a) as [d|]; cbn in *; [|done].
    unfold dict_mem in *. by rewrite dict_get_set_ne. }
  rewrite Hmachine, Hexc. cbn [fst snd]. repeat split.
  by destruct (dict_mem (KStr "sys") (deref a s1)).
Qed.

(** X5 on the Python 3.8 host, where [platform.dist] is missing. *)
Lemma handle_exception_machine_placeholder_raises_witness :
  (StackSentinelClient.handle_exception Samples.python38
     (Samples.sample_client None) None
     (Some (ExcTriple (Some "ValueError") (Some Samples.boom) []))
     None PNone false false Samples.empty_store).1
  = Raise (TypeError "must be real number, not AttributeError").
Proof.
  assert (∀ a : nat, (None : option nat) = Some a →
            dict_mem (KStr "machine") (deref a Samples.empty_store) = false)
    as Hlacks by discriminate.
  destruct (StackSentinelClient._get_machine_info Samples.python38)
    as [v|e] eqn:Hmachine; [discriminate Hmachine|].
  injection Hmachine as <-.
  exact (proj1 (handle_exception_machine_placeholder_raises Samples.python38
                  (Samples.sample_client None) None (Some "ValueError")
                  (Some Samples.boom) [] None PNone false false
                  Samples.empty_store (PStr "boom") _ eq_refl Hlacks eq_refl
                  eq_refl)).
Defined.

(** X4 on the Python 3.7 host: the report gets a dictionary of its own. *)
Lemma handle_exception_makes_own_state_witness :
  ∃ args s' v,
    StackSentinelClient.handle_exception Samples.python37
      (Samples.sample_client None) (Some Samples.boom) None None PNone
      false true (Store [[(KStr "mine", PInt 1)]] [])
    = (Ok (DryRun args), s')
    ∧ state args = 1%nat
    ∧ heap s' = [[(KStr "mine", PInt 1)];
                 [(KStr "sys", StackSentinelClient._get_sys_info Samples.python37);
                  (KStr "machine", v)]].
Proof.
  pose proof (handle_exception_makes_own_state Samples.python37
                (Samples.sample_client None) (Some Samples.boom) None PNone
                false true (Store [[(KStr "mine", PInt 1)]] [])) as [_ Hret].
  destruct (StackSentinelClient.handle_exception _ _ _ _ _ _ _ _ _)
    as [[[args|reply]|e] s'] eqn:Hrun; try discriminate Hrun.
  destruct (Hret _ eq_refl) as (v & _ & Hheap & Hstate).
  exists args, s', v. split; [reflexivity|].
  split; [exact (Hstate args eq_refl)|exact Hheap].
Defined.

(** ** The payload *)



(** ** The machine collector, when it returns *)

(** X9.  When [_get_machine_info] returns, the mapping has
    ['hostname'] and ['environ'], followed by the five [platform] entries
    when the module is there and by nothing when it is not, each under
    its key with the value the facility returned.  The host name is what
    [socket.gethostname()] returned, the placeholder with the [repr] of
    its [Exception], or the fixed text when there is no [socket]. *)
Theorem machine_info_shape (w : runtime) (v : pyval) :
  StackSentinelClient._get_machine_info w = Ok v →
  ∃ hostname environ,
    os_environ w = Ok environ
    ∧ (if socket w
       then socket_gethostname w = Ok hostname
            ∨ ∃ e r, socket_gethostname w = Raise e
                     ∧ e_is_Exception e = true ∧ repr w e = Ok r
                     ∧ hostname = PStr ("<Could not determine: " +:+ r +:+ ">")
       else hostname = PStr "<socket module not available>")
    ∧ if platform w
      then ∃ uname node libc_ver version dist,
             platform_uname w = Ok uname ∧ platform_node w = Ok node
             ∧ platform_libc_ver w = Ok libc_ver
             ∧ platform_version w = Ok version ∧ platform_dist w = Ok dist
             ∧ v = PDict [(KStr "hostname", hostname);
                          (KStr "environ", environ);
                          (KStr "platform", uname); (KStr "node", node);
                          (KStr "libc_ver", libc_ver);
                          (KStr "version", version); (KStr "dist", dist)]
      else v = PDict [(KStr "hostname", hostname); (KStr "environ", environ)].
Proof.
  unfold StackSentinelClient._get_machine_info,
    StackSentinelClient.could_not_determine.
  intros Hrun.
  destruct (if socket w
            then try_except_Exception (socket_gethostname w)
                   (λ e, r ← repr w e;
                         Ok (PStr ("<Could not determine: " +:+ r +:+ ">")))
            else Ok (PStr "<socket module not available>"))
    as [hostname|e] eqn:Hhost; cbn [mbind result_bind rbind] in Hrun;
    [|discriminate].
  destruct (os_environ w) as [environ|e]; cbn [rbind] in Hrun; [|discriminate].
  exists hostname, environ. split; [done|]. split.
  - destruct (socket w); [|by injection Hhost as <-].
    destruct (socket_gethostname w) as [h|e]; cbn in Hhost.
    + left. by injection Hhost as <-.
    + right. destruct (e_is_Exception e) eqn:Hexc; [|discriminate].
      destruct (repr w e) as [r|e'] eqn:Hrepr; cbn in Hhost; [|discriminate].
      injection Hhost as <-. by exists e, r.
  - clear Hhost. destruct (platform w); [|by injection Hrun as <-].
    destruct (platform_uname w) as [uname|e]; cbn [rbind] in Hrun;
      [|discriminate].
    destruct (platform_node w) as [node|e]; cbn [rbind] in Hrun;
      [|discriminate].
    destruct (platform_libc_ver w) as [libc_ver|e]; cbn [rbind] in Hrun;
      [|discriminate].
    destruct (platform_version w) as [version|e]; cbn [rbind] in Hrun;
      [|discriminate].
    destruct (platform_dist w) as [dist|e]; cbn [rbind] in Hrun;
      [|discriminate].
    injection Hrun as <-. by exists uname, node, libc_ver, version, dist.
Qed.

(** X9 on the host whose name cannot be looked up. *)
Lemma machine_info_shape_witness :
  ∃ d,
    StackSentinelClient._get_machine_info Samples.nameless = Ok (PDict d)
    ∧ dict_get (KStr "hostname") d
      = Some (PStr "<Could not determine: gaierror(...)>")
    ∧ dict_keys d
      = [KStr "hostname"; KStr "environ"; KStr "platform"; KStr "node";
         KStr "libc_ver"; KStr "version"; KStr "dist"].
Proof.
  destruct (StackSentinelClient._get_machine_info Samples.nameless)
    as [v|e] eqn:Hrun; [|discriminate Hrun].
  destruct (machine_info_shape Samples.nameless v Hrun)
    as (hostname & environ & Henv & Hhost & Hplat).
  cbn in Hhost, Hplat.
  destruct Hhost as [Hok|(e & r & He & _ & Hr & ->)]; [discriminate Hok|].
  injection He as <-. cbv in Hr. injection Hr as <-.
  destruct Hplat as (uname & node & libc_ver & version & dist & _ & _ & _ & _
                     & _ & ->).
  eexists. split; [reflexivity|]. split; reflexivity.
Defined.

(** ** The requests of [handle_exception] *)

(** The events of [send_error]: at most one request, for the endpoint
    of the client, whose body is the encoded envelope. *)
Lemma send_error_events
    (w : runtime) (self : StackSentinelClient.t) (a : send_error_args)
    (s : store) :
  events (StackSentinelClient.send_error w self a s).2 = events s
  ∨ ∃ payload,
      json_dumps StackSentinelClient._serialize_object
        (StackSentinelClient.envelope self (environment a)
           (error_message a) (error_type a) (return_feedback_urls a)
           (deref (state a) s) (tags a) (traceback a)) = Ok payload
      ∧ events (StackSentinelClient.send_error w self a s).2
        = EvUrlopen (request_of self payload) :: events s.
Proof.
  unfold StackSentinelClient.send_error. mrun. rewrite generate_request_run.
  destruct (json_dumps_within _ _ _) as [payload|e] eqn:Hdump;
    cbn [mbind result_bind rbind]; mrun; [|by left].
  apply json_dumps_within_ok in Hdump.
  destruct (request_error w _); mrun; [by left|].
  rewrite open_request_run.
  right. exists payload. split; [exact Hdump|].
  destruct (urlopen w _) as [response|e]; mrun; [|reflexivity].
  destruct (StackSentinelClient.read_text w response) as [text|e]; mrun;
    [|reflexivity].
  by destruct (json_loads w text).
Qed.

(** The events of [handle_exception]: at most one request. *)
Lemma handle_exception_events
    (w : runtime) (self : StackSentinelClient.t) (handling : option exnobj)
    (exc_info : option exc_triple) (caller_state : option nat)
    (call_tags : pyval) (rfu dry_run : bool) (s : store) :
  events (StackSentinelClient.handle_exception w self handling exc_info
            caller_state call_tags rfu dry_run s).2 = events s
  ∨ ∃ payload,
      events (StackSentinelClient.handle_exception w self handling exc_info
                caller_state call_tags rfu dry_run s).2
      = EvUrlopen (request_of self payload) :: events s.
Proof.
  rewrite handle_exception_run.
  pose proof (collect_send_error_args_events w self handling exc_info
                caller_state call_tags rfu s) as Hev.
  destruct (StackSentinelClient.collect_send_error_args _ _ _ _ _ _ _ _)
    as [[args|e] s1]; cbn [snd] in *; [|by left].
  destruct dry_run; [by left|].
  rewrite reply_wrap_store.
  destruct (send_error_events w self args s1) as [->|(payload & _ & ->)];
    [by left|].
  right. exists payload. by rewrite Hev.
Qed.

(** A request sent by [handle_exception] comes from a wet run whose
    bundle was collected; its body is the encoding of the envelope of
    that bundle, over the [state] as the collection left it. *)
Lemma handle_exception_request
    (w : runtime) (self : StackSentinelClient.t) (handling : option exnobj)
    (exc_info : option exc_triple) (caller_state : option nat)
    (call_tags : pyval) (rfu dry_run : bool) (s : store) (request : Request) :
  events (StackSentinelClient.handle_exception w self handling exc_info
            caller_state call_tags rfu dry_run s).2
  = EvUrlopen request :: events s →
  dry_run = false
  ∧ ∃ args s1 payload,
      StackSentinelClient.collect_send_error_args w self handling exc_info
        caller_state call_tags rfu s = (Ok args, s1)
      ∧ json_dumps StackSentinelClient._serialize_object
          (StackSentinelClient.envelope self (environment args)
             (error_message args) (error_type args)
             (return_feedback_urls args) (deref (state args) s1) (tags args)
             (traceback args)) = Ok payload
      ∧ request = request_of self payload.
Proof.
  rewrite handle_exception_run.
  pose proof (collect_send_error_args_events w self handling exc_info
                caller_state call_tags rfu s) as Hev.
  destruct (StackSentinelClient.collect_send_error_args _ _ _ _ _ _ _ _)
    as [[args|e] s1]; cbn [snd] in *.
  2:{ intros Hreq. rewrite Hev in Hreq. by apply events_not_cons in Hreq. }
  destruct dry_run.
  { cbn [snd]. intros Hreq. rewrite Hev in Hreq.
    by apply events_not_cons in Hreq. }
  rewrite reply_wrap_store.
  destruct (send_error_events w self args s1) as [->|(payload & Hdump & ->)].
  - intros Hreq. rewrite Hev in Hreq. by apply events_not_cons in Hreq.
  - rewrite Hev. intros [= <-]. split; [done|]. by exists args, s1, payload.
Qed.

(** X10.  A call of [handle_exception] sends at most one request: the
    events after it are those before, or those before and one [urlopen],
    which then is a wet run's, for the client's endpoint with the three
    fixed headers. *)
Theorem handle_exception_sends_at_most_once
    (w : runtime) (self : StackSentinelClient.t) (handling : option exnobj)
    (exc_info : option exc_triple) (caller_state : option nat)
    (call_tags : pyval) (rfu dry_run : bool) (s : store) :
  let run := StackSentinelClient.handle_exception w self handling exc_info
               caller_state call_tags rfu dry_run s in
  events run.2 = events s
  ∨ (dry_run = false
     ∧ ∃ payload, events run.2 = EvUrlopen (request_of self payload) :: events s).
Proof.
  cbn zeta. rewrite handle_exception_run.
  pose proof (collect_send_error_args_events w self handling exc_info
                caller_state call_tags rfu s) as Hev.
  destruct (StackSentinelClient.collect_send_error_args _ _ _ _ _ _ _ _)
    as [[args|e] s1]; cbn [snd] in *; [|by left].
  destruct dry_run; [by left|].
  rewrite reply_wrap_store.
  destruct (send_error_events w self args s1) as [->|(payload & _ & ->)];
    [by left|].
  right. split; [done|]. exists payload. by rewrite Hev.
Qed.

(** X11.  For a client built with [tags] and a call whose [tags] is a
    list, the tags of the report are the client's (none when the client
    was built with [None] or an empty list) followed by the call's, in
    order and with nothing removed: in the bundle of a dry run, and in the
    envelope of the request of a wet one. *)
Theorem handle_exception_list_tags
    (w : runtime) (account_token project_token environment endpoint : string)
    (client_tags : option (list pyval)) (handling : option exnobj)
    (exc_info : option exc_triple) (caller_state : option nat)
    (l : list pyval) (rfu dry_run : bool) (s : store) :
  let self := StackSentinelClient.__init__ account_token project_token
                environment client_tags endpoint in
  let run := StackSentinelClient.handle_exception w self handling exc_info
               caller_state (PList l) rfu dry_run s in
  (∀ args, run.1 = Ok (DryRun args) → tags args = default [] client_tags ++ l)
  ∧ (∀ request, events run.2 = EvUrlopen request :: events s →
       ∃ envelope,
         json_dumps StackSentinelClient._serialize_object envelope
         = Ok (req_data request)
         ∧ envelope_tags envelope = Some (PList (default [] client_tags ++ l))).
Proof.
  intros self run.
  assert (StackSentinelClient.self_tags self = default [] client_tags) as Hself.
  { by destruct client_tags as [[|x l']|]. }
  split.
  - intros args Hrun. unfold run in Hrun.
    destruct (StackSentinelClient.handle_exception _ _ _ _ _ _ _ _ _)
      as [r s'] eqn:Hh. cbn in Hrun. subst r.
    apply handle_exception_ok_inv in Hh as (args' & s1 & Hc & _ & Hdry).
    rewrite (Hdry args eq_refl).
    apply collect_send_error_args_ok in Hc
      as (? & ? & ? & ? & ? & _ & _ & _ & _ & _ & _ & Htags & _).
    by rewrite Htags, Hself.
  - intros request Hreq.
    apply handle_exception_request in Hreq
      as (_ & args & s1 & payload & Hc & Hdump & ->).
    apply collect_send_error_args_ok in Hc
      as (? & ? & ? & ? & ? & _ & _ & _ & _ & _ & _ & Htags & _).
    eexists. split; [exact Hdump|].
    unfold envelope_tags, StackSentinelClient.envelope. cbn.
    by rewrite tags_or_empty, Htags, Hself.
Qed.

(** X11 on a client with the tag ['web'] and a call with ['checkout']. *)
Lemma handle_exception_list_tags_witness :
  ∃ request envelope evs,
    events (StackSentinelClient.handle_exception Samples.python37
              (StackSentinelClient.__init__ "account" "project" "devel"
                 (Some [PStr "web"]) StackSentinelClient.default_endpoint)
              (Some Samples.boom) None None (PList [PStr "checkout"]) false
              false Samples.empty_store).2 = EvUrlopen request :: evs
    ∧ json_dumps StackSentinelClient._serialize_object envelope
      = Ok (req_data request)
    ∧ envelope_tags envelope = Some (PList [PStr "web"; PStr "checkout"]).
Proof.
  destruct (handle_exception_list_tags Samples.python37 "account" "project"
              "devel" StackSentinelClient.default_endpoint (Some [PStr "web"])
              (Some Samples.boom) None None [PStr "checkout"] false false
              Samples.empty_store) as [_ Hsent].
  destruct (Hsent _ eq_refl) as (envelope & Hdump & Htags).
  eexists _, envelope, []. split; [reflexivity|]. split; [exact Hdump|].
  exact Htags.
Defined.

(** ** The middleware, path by path *)

(** X12.  When the application returns a response whose iteration ends
    without an exception and the consumer goes to the end, the middleware
    yields the items of the response, in order, reports nothing and
    changes no dictionary; it then calls [close] when the response has
    one, and ends as the iteration did unless [close] raises.  When the
    application returns [None], nothing at all happens. *)
Theorem middleware_passes_through
    (w : runtime) (self : StackSentinelMiddleware.t) (environ : pyval)
    (takes : option nat) (s : store) :
  takes ≠ Some O →
  (StackSentinelMiddleware.app self environ = Ok None →
     StackSentinelMiddleware.__call__ w self environ takes s = (Ok tt, s))
  ∧ (∀ r,
       StackSentinelMiddleware.app self environ = Ok (Some r) →
       StackSentinelMiddleware.r_raises r = None →
       asks_for match takes with Some (S k) => Some k | _ => None end
         (length (StackSentinelMiddleware.r_items r)) →
       StackSentinelMiddleware.__call__ w self environ takes s
       = (after_close r (Ok tt),
          Store (heap s)
            (close_events r
             ++ rev (map EvYield (StackSentinelMiddleware.r_items r))
             ++ events s))).
Proof.
  intros Htakes. split.
  - intros Happ. rewrite call_started, Happ by done. by destruct s.
  - intros r Happ Hraises Hasks. rewrite call_started, Happ by done.
    unfold try_finally, try_Exception.
    rewrite (for_yield_run _ _ _ s Hasks), Hraises, close_result_run.
    unfold after_close.
    by destruct (StackSentinelMiddleware.r_close r) as [[[]|closing]|].
Qed.

(** X12 on an application that answers with two items and has a
    [close]. *)
Lemma middleware_passes_through_witness :
  let page := StackSentinelMiddleware.Response [PStr "<html>"; PStr "</html>"]
                None (Some (Ok tt)) in
  let self := StackSentinelMiddleware.Middleware (λ _, Ok (Some page))
                (Samples.sample_client None) in
  StackSentinelMiddleware.__call__ Samples.bad_token self Samples.environ None
    Samples.empty_store
  = (Ok tt,
     Store [] [EvClose; EvYield (PStr "</html>"); EvYield (PStr "<html>")]).
Proof.
  intros page self.
  exact (proj2 (middleware_passes_through Samples.bad_token self
                  Samples.environ None Samples.empty_store
                  ltac:(discriminate)) page eq_refl eq_refl I).
Defined.

(** X13.  When the consumer closes the generator after [k + 1] items
    that the response has, the middleware has yielded exactly these
    items; the [GeneratorExit] is not an [Exception], so nothing is
    reported and no dictionary is created; [close] is called when the
    response has one, and [GeneratorExit] leaves unless [close] raises. *)
Theorem middleware_early_close_not_reported
    (w : runtime) (self : StackSentinelMiddleware.t) (environ : pyval)
    (k : nat) (s : store) (r : StackSentinelMiddleware.response) :
  StackSentinelMiddleware.app self environ = Ok (Some r) →
  (k < length (StackSentinelMiddleware.r_items r))%nat →
  StackSentinelMiddleware.__call__ w self environ (Some (S k)) s
  = (after_close r (Raise GeneratorExit),
     Store (heap s)
       (close_events r
        ++ rev (map EvYield (take (S k) (StackSentinelMiddleware.r_items r)))
        ++ events s)).
Proof.
  intros Happ Hk. rewrite call_started, Happ by done.
  unfold try_finally, try_Exception.
  rewrite (for_yield_closed _ _ _ s Hk). cbn [e_is_Exception GeneratorExit].
  rewrite close_result_run. unfold after_close.
  by destruct (StackSentinelMiddleware.r_close r) as [[[]|closing]|].
Qed.

(** X13 on the application that would fail on its second item: the
    consumer takes the first item and closes. *)
Lemma middleware_early_close_not_reported_witness :
  StackSentinelMiddleware.__call__ Samples.python37 Samples.breaking_app
    Samples.environ (Some 1%nat) Samples.empty_store
  = (Raise GeneratorExit, Store [] [EvClose; EvYield (PStr "<html>")]).
Proof.
  exact (middleware_early_close_not_reported Samples.python37
           Samples.breaking_app Samples.environ 0 Samples.empty_store _
           eq_refl ltac:(cbn; lia)).
Defined.

(** ** The reports of the middleware *)

Lemma silent_ret {A} (a : A) : silent (mret a : M A).
Proof. by intros s. Qed.

Lemma silent_raise {A} (e : exnobj) : silent (@raise A e).
Proof. by intros s. Qed.

Lemma silent_bind {A B} (m : M A) (f : A → M B) :
  silent m → (∀ a, silent (f a)) → silent (m ≫= f).
Proof.
  intros Hm Hf s. specialize (Hm s). mrun.
  destruct (m s) as [[a|e] s1]; cbn [snd] in *; [|done].
  by rewrite (Hf a s1).
Qed.

Lemma silent_for_yield (items : list pyval) (raises : option exnobj)
    (more : option nat) :
  silent (StackSentinelMiddleware.for_yield items raises more).
Proof.
  revert more. induction items as [|i items IH]; intros more;
    cbn [StackSentinelMiddleware.for_yield].
  - destruct raises; [apply silent_raise|apply silent_ret].
  - apply silent_bind; [by intros s|]. intros _.
    destruct more as [[|k]|]; [apply silent_raise|apply IH..].
Qed.

Lemma silent_close_result (result : option StackSentinelMiddleware.response) :
  silent (StackSentinelMiddleware.close_result result).
Proof.
  intros s. destruct result as [r|]; [|done]. cbn.
  destruct (StackSentinelMiddleware.r_close r); by mrun.
Qed.

(** The iteration raises what the response raises, or the
    [GeneratorExit] of a consumer that closes. *)
Lemma for_yield_raises (items : list pyval) (raises : option exnobj)
    (more : option nat) (s : store) (e : exnobj) :
  (StackSentinelMiddleware.for_yield items raises more s).1 = Raise e →
  e = GeneratorExit ∨ raises = Some e.
Proof.
  revert more s. induction items as [|i items IH]; intros more s;
    cbn [StackSentinelMiddleware.for_yield].
  - destruct raises; cbn; [intros [= ->]; by right|discriminate].
  - mrun. destruct more as [[|k]|]; [intros [= <-]; by left|apply IH..].
Qed.

Section Reports.
Import StackSentinelMiddleware.
Variable w : runtime.
Variable self : StackSentinelMiddleware.t.
Variable environ : pyval.

(** One report is at most one request, for the endpoint of the client. *)
Lemma report_events (e : exnobj) (s : store) :
  events (report w self e environ s).2 = events s
  ∨ ∃ payload,
      events (report w self e environ s).2
      = EvUrlopen (request_of (client self) payload) :: events s.
Proof.
  unfold report. mrun.
  destruct (handle_exception_events w (client self) (Some e) None
              (Some (length (heap s))) PNone false false
              (Store (heap s ++ [[(KStr "wsgi_environ", environ)]]) (events s)))
    as [Hev|(payload & Hev)].
  - left. by destruct (StackSentinelClient.handle_exception _ _ _ _ _ _ _ _ _)
      as [[r|e'] s1].
  - right. exists payload.
    by destruct (StackSentinelClient.handle_exception _ _ _ _ _ _ _ _ _)
      as [[r|e'] s1].
Qed.

Lemma report_requests (e : exnobj) (s : store) :
  requests (events (report w self e environ s).2) = requests (events s)
  ∨ ∃ payload,
      requests (events (report w self e environ s).2)
      = request_of (client self) payload :: requests (events s).
Proof.
  destruct (report_events e s) as [->|(payload & ->)]; [by left|].
  right. by exists payload.
Qed.

(** The handler of an [except Exception] clause sends what its report
    sends. *)
Lemma handler_store {A} (e : exnobj) (s : store) :
  ((report w self e environ;; @raise A e) s).2
  = (report w self e environ s).2.
Proof. by rewrite report_then_raise. Qed.

End Reports.

(** X14.  One run of the middleware sends at most one request, for the
    endpoint of its client.  It sends none when no [Exception] arises:
    when the application and the iteration of its response raise nothing,
    or only exceptions that do not derive from [Exception]. *)
Theorem middleware_reports_at_most_once
    (w : runtime) (self : StackSentinelMiddleware.t) (environ : pyval)
    (takes : option nat) (s : store) :
  let s' := (StackSentinelMiddleware.__call__ w self environ takes s).2 in
  (requests (events s') = requests (events s)
   ∨ ∃ payload,
       requests (events s')
       = request_of (StackSentinelMiddleware.client self) payload
         :: requests (events s))
  ∧ ((∀ e, StackSentinelMiddleware.app self environ = Raise e →
           e_is_Exception e = false) →
     (∀ r e, StackSentinelMiddleware.app self environ = Ok (Some r) →
             StackSentinelMiddleware.r_raises r = Some e →
             e_is_Exception e = false) →
     requests (events s') = requests (events s)).
Proof.
  cbn zeta.
  destruct (decide (takes = Some O)) as [->|Htakes]; [by split; [left|]|].
  rewrite call_started by done.
  destruct (StackSentinelMiddleware.app self environ) as [result|e] eqn:Happ.
  - unfold try_finally, try_Exception.
    pose proof (silent_for_yield) as Hsilent.
    set (body := match result with
                 | Some r => StackSentinelMiddleware.for_yield _ _ _
                 | None => mret tt
                 end).
    assert (requests (events (body s).2) = requests (events s)) as Hbody.
    { unfold body. destruct result; [apply Hsilent|done]. }
    assert (∀ e, (body s).1 = Raise e → e_is_Exception e = true →
                 ∃ r, result = Some r
                      ∧ StackSentinelMiddleware.r_raises r = Some e) as Hraised.
    { unfold body. intros e He Hexc. destruct result as [r|]; [|discriminate].
      exists r. split; [done|].
      apply for_yield_raises in He as [->|He]; [discriminate|done]. }
    destruct (body s) as [[[]|e] s1]; cbn [fst snd] in *.
    + pose proof (silent_close_result result s1) as Hclose.
      destruct (StackSentinelMiddleware.close_result result s1)
        as [[[]|ec] s2]; cbn [snd] in *; rewrite Hclose, Hbody;
        by split; [left|].
    + destruct (e_is_Exception e) eqn:Hexc.
      * pose proof (handler_store w self environ (A:=unit) e s1) as Hh.
        destruct ((StackSentinelMiddleware.report w self e environ;; raise e) s1)
          as [r2 s2]. cbn [snd] in Hh. subst s2.
        pose proof (silent_close_result result
                      (StackSentinelMiddleware.report w self e environ s1).2)
          as Hclose.
        assert (requests (events
                  match StackSentinelMiddleware.close_result result
                          (StackSentinelMiddleware.report w self e environ s1).2
                  with
                  | (Ok _, s'') => (r2, s'')
                  | (Raise e0, s'') => (Raise e0, s'')
                  end.2)
                = requests (events
                    (StackSentinelMiddleware.report w self e environ s1).2))
          as ->.
        { by destruct (StackSentinelMiddleware.close_result _ _)
            as [[[]|ec] s3]. }
        split.
        -- destruct (report_requests w self environ e s1) as [->|[payload ->]];
             rewrite Hbody; [by left|right; by exists payload].
        -- intros _ Hiter. destruct (Hraised e eq_refl Hexc) as (r & -> & Hr).
           specialize (Hiter r e eq_refl Hr). congruence.
      * pose proof (silent_close_result result s1) as Hclose.
        destruct (StackSentinelMiddleware.close_result result s1)
          as [[[]|ec] s2]; cbn [snd] in *; rewrite Hclose, Hbody;
          by split; [left|].
  - destruct (e_is_Exception e) eqn:Hexc; [|by split; [left|]].
    rewrite handler_store. split.
    + destruct (report_requests w self environ e s) as [->|[payload ->]];
        [by left|right; by exists payload].
    + intros Hcall _. specialize (Hcall e eq_refl). congruence.
Qed.

(** X14 on an application interrupted by the user: [KeyboardInterrupt]
    is not an [Exception], and nothing is sent. *)
Lemma middleware_reports_at_most_once_witness :
  let interrupt := Exn "KeyboardInterrupt" false [] None [] false in
  let self := StackSentinelMiddleware.Middleware (λ _, Raise interrupt)
                (Samples.sample_client None) in
  StackSentinelMiddleware.__call__ Samples.python37 self Samples.environ None
    Samples.empty_store = (Raise interrupt, Samples.empty_store)
  ∧ requests (events (StackSentinelMiddleware.__call__ Samples.python37 self
                        Samples.environ None Samples.empty_store).2) = [].
Proof.
  intros interrupt self. split; [reflexivity|].
  apply (proj2 (middleware_reports_at_most_once Samples.python37 self
                  Samples.environ None Samples.empty_store)).
  - by intros e [= <-].
  - discriminate.
Defined.

Lemma requests_not_cons (request : Request) (l : list Request) :
  l ≠ request :: l.
Proof. intros H. apply (f_equal length) in H. cbn in H. lia. Qed.

(** The request of a report carries the environ. *)
Lemma report_request_state
    (w : runtime) (self : StackSentinelMiddleware.t) (environ : pyval)
    (e : exnobj) (s : store) (request : Request) :
  events (StackSentinelMiddleware.report w self e environ s).2
  = EvUrlopen request :: events s →
  ∃ envelope d,
    json_dumps StackSentinelClient._serialize_object envelope
    = Ok (req_data request)
    ∧ envelope_state envelope = Some (PDict d)
    ∧ dict_get (KStr "wsgi_environ") d = Some environ.
Proof.
  unfold StackSentinelMiddleware.report. mrun.
  set (s0 := Store (heap s ++ [[(KStr "wsgi_environ", environ)]]) (events s)).
  intros Hreq.
  assert (events (StackSentinelClient.handle_exception w
                    (StackSentinelMiddleware.client self) (Some e) None
                    (Some (length (heap s))) PNone false false s0).2
          = EvUrlopen request :: events s0) as Hsent.
  { by destruct (StackSentinelClient.handle_exception _ _ _ _ _ _ _ _ _)
      as [[r|e'] s1]. }
  apply handle_exception_request in Hsent
    as (_ & args & s1 & payload & Hc & Hdump & ->).
  pose proof (collect_send_error_args_keeps w
                (StackSentinelMiddleware.client self) (Some e) None
                (length (heap s)) PNone false s0) as (_ & _ & Hkeep).
  rewrite Hc in Hkeep. cbn [snd] in Hkeep.
  apply collect_send_error_args_ok in Hc
    as (? & ? & ? & ? & ? & Hres & _).
  cbn in Hres. injection Hres as Ha _.
  eexists _, _. split; [exact Hdump|]. split; [reflexivity|].
  rewrite <- Ha. apply Hkeep. unfold s0. by rewrite deref_new.
Qed.

(** Where a request of the middleware comes from: a report, made in a
    store that had the requests of the start. *)
Lemma call_request_origin
    (w : runtime) (self : StackSentinelMiddleware.t) (environ : pyval)
    (takes : option nat) (s : store) (request : Request) :
  requests (events (StackSentinelMiddleware.__call__ w self environ takes s).2)
  = request :: requests (events s) →
  ∃ e s0,
    events (StackSentinelMiddleware.report w self e environ s0).2
    = EvUrlopen request :: events s0.
Proof.
  destruct (decide (takes = Some O)) as [->|Htakes].
  { intros H. by apply requests_not_cons in H. }
  rewrite call_started by done.
  assert (∀ e s0 s2,
            requests (events s0) = requests (events s) →
            requests (events s2)
            = requests (events
                (StackSentinelMiddleware.report w self e environ s0).2) →
            requests (events s2) = request :: requests (events s) →
            ∃ e s0,
              events (StackSentinelMiddleware.report w self e environ s0).2
              = EvUrlopen request :: events s0) as Hvia.
  { intros e s0 s2 Hs0 Hs2 Hreq. exists e, s0.
    destruct (report_events w self environ e s0) as [Hev|(payload & Hev)].
    - rewrite Hs2, Hev, Hs0 in Hreq. by apply requests_not_cons in Hreq.
    - rewrite Hs2, Hev in Hreq. cbn in Hreq. by injection Hreq as <- _. }
  destruct (StackSentinelMiddleware.app self environ) as [result|e].
  - unfold try_finally, try_Exception.
    set (body := match result with
                 | Some r => StackSentinelMiddleware.for_yield _ _ _
                 | None => mret tt
                 end).
    assert (requests (events (body s).2) = requests (events s)) as Hbody.
    { unfold body. destruct result; [apply silent_for_yield|done]. }
    destruct (body s) as [[[]|e] s1]; cbn [fst snd] in *.
    + pose proof (silent_close_result result s1) as Hclose.
      destruct (StackSentinelMiddleware.close_result result s1)
        as [[[]|ec] s2]; cbn [snd] in *; rewrite Hclose, Hbody;
        intros H; by apply requests_not_cons in H.
    + destruct (e_is_Exception e).
      * pose proof (handler_store w self environ (A:=unit) e s1) as Hh.
        destruct ((StackSentinelMiddleware.report w self e environ;; raise e) s1)
          as [r2 s2]. cbn [snd] in Hh. subst s2.
        pose proof (silent_close_result result
                      (StackSentinelMiddleware.report w self e environ s1).2)
          as Hclose.
        destruct (StackSentinelMiddleware.close_result _ _)
          as [[[]|ec] s3]; cbn [snd] in *; by apply (Hvia e s1 s3).
      * pose proof (silent_close_result result s1) as Hclose.
        destruct (StackSentinelMiddleware.close_result result s1)
          as [[[]|ec] s2]; cbn [snd] in *; rewrite Hclose, Hbody;
          intros H; by apply requests_not_cons in H.
  - destruct (e_is_Exception e).
    + rewrite handler_store. by apply (Hvia e s).
    + intros H. by apply requests_not_cons in H.
Qed.

(** X15.  The request that a run of the middleware sends is a report
    whose [state] has [environ] under ['wsgi_environ']. *)
Theorem middleware_report_carries_environ
    (w : runtime) (self : StackSentinelMiddleware.t) (environ : pyval)
    (takes : option nat) (s : store) (request : Request) :
  requests (events (StackSentinelMiddleware.__call__ w self environ takes s).2)
  = request :: requests (events s) →
  ∃ envelope d,
    json_dumps StackSentinelClient._serialize_object envelope
    = Ok (req_data request)
    ∧ envelope_state envelope = Some (PDict d)
    ∧ dict_get (KStr "wsgi_environ") d = Some environ.
Proof.
  intros Hreq. apply call_request_origin in Hreq as (e & s0 & Hsent).
  by apply report_request_state in Hsent.
Qed.

(** X15 on the application that raises when called. *)
Lemma middleware_report_carries_environ_witness :
  ∃ request envelope d,
    requests (events (StackSentinelMiddleware.__call__ Samples.python37
                        Samples.raising_app Samples.environ None
                        Samples.empty_store).2) = [request]
    ∧ json_dumps StackSentinelClient._serialize_object envelope
      = Ok (req_data request)
    ∧ envelope_state envelope = Some (PDict d)
    ∧ dict_get (KStr "wsgi_environ") d = Some Samples.environ.
Proof.
  destruct (requests (events (StackSentinelMiddleware.__call__
                                Samples.python37 Samples.raising_app
                                Samples.environ None Samples.empty_store).2))
    as [|request [|? ?]] eqn:Hreq; try discriminate Hreq.
  destruct (middleware_report_carries_environ Samples.python37
              Samples.raising_app Samples.environ None Samples.empty_store
              request Hreq) as (envelope & d & Hdump & Hstate & Henv).
  by exists request, envelope, d.
Defined.

(** ** Reading the reply *)

(** X16.  On Python 3 the reply is decoded with the charset it
    declares, and with [utf8] when it declares none or an empty one.  On
    Python 2 the declared charset is never used: when the content type,
    stripped, has something after its last [charset=] (the whole header
    when it has no [charset=]), the reply is decoded as UTF-8 with
    replacement, which cannot fail; when nothing is left there, or the
    header is missing, [decode] is called with the empty encoding
    name. *)
Theorem read_text_encoding (w : runtime) (response : http_response) :
  StackSentinelClient.read_text w response
  = if 2 <? version_info_major w
    then bytes_decode w
           match resp_content_charset response with
           | Some charset => if decide (charset = "") then "utf8" else charset
           | None => "utf8"
           end
           (resp_body response)
    else match resp_content_type response with
         | Some header =>
             if decide (strip (split_last "charset=" header) = "")
             then bytes_decode w "" (resp_body response)
             else Ok (decode_utf8_replace w (resp_body response))
         | None => bytes_decode w "" (resp_body response)
         end.
Proof.
  unfold StackSentinelClient.read_text.
  destruct (2 <? version_info_major w).
  - unfold StackSentinelClient.str_or.
    destruct (resp_content_charset response) as [charset|]; [|reflexivity].
    destruct (decide (charset = "")) as [->|Hne]; [reflexivity|].
    by rewrite bool_decide_eq_false_2.
  - destruct (resp_content_type response) as [header|];
      cbv beta iota zeta delta [from_option id].
    + destruct (decide (strip (split_last "charset=" header) = ""))
        as [Hempty|Hne].
      * rewrite bool_decide_eq_false_2 by (by intros H; apply H).
        by rewrite Hempty.
      * by rewrite bool_decide_eq_true_2.
    + reflexivity.
Qed.

(** On Python 2, a reply that declares [latin-1] is decoded as UTF-8 with
    replacement, and one whose header ends in [charset=] with the empty
    encoding name. *)
Example read_text_on_python2
    (w : runtime) (body : string) (charset : option string) :
  version_info_major w = 2 →
  StackSentinelClient.read_text w
    (HttpResponse body charset (Some "text/html; charset=latin-1"))
  = Ok (decode_utf8_replace w body)
  ∧ StackSentinelClient.read_text w
      (HttpResponse body charset (Some "text/html; charset= "))
    = bytes_decode w "" body.
Proof.
  intros Hmajor. unfold StackSentinelClient.read_text. rewrite Hmajor.
  split; reflexivity.
Qed.

(** ** A text that cannot be taken *)

(** X17.  When the machine collector returns but the text of the
    exception cannot be taken ([str] on Python 3, [unicode] on Python 2
    raises), [handle_exception] raises that error and sends nothing,
    dry run or not. *)
Theorem handle_exception_text_failure
    (w : runtime) (self : StackSentinelClient.t) (value : exnobj)
    (caller_state : option nat) (call_tags : pyval) (rfu dry_run : bool)
    (s : store) (v : pyval) (failure : exnobj) :
  StackSentinelClient._get_machine_info w = Ok v →
  e_args value ≠ [] ∨ (∃ r, repr w value = Ok r) →
  (if 2 <? version_info_major w then str w value else unicode w value)
  = Raise failure →
  let run := StackSentinelClient.handle_exception w self (Some value) None
               caller_state call_tags rfu dry_run s in
  run.1 = Raise failure ∧ events run.2 = events s.
Proof.
  intros Hmachine Hmsg Htext. cbn zeta.
  destruct (msg_of_handled w value Hmsg) as [msg Hmsg'].
  rewrite handle_exception_run.
  pose proof (collect_send_error_args_events w self (Some value) None
                caller_state call_tags rfu s) as Hev.
  revert Hev.
  unfold StackSentinelClient.collect_send_error_args.
  cbn [sys_exc_info]. mrun. rewrite Hmsg'. mrun.
  destruct (resolve_state_run caller_state s) as (a & s1 & -> & _).
  mrun. rewrite populate_sys_run. mrun. rewrite populate_machine_run, Hmachine.
  assert (StackSentinelClient.error_texts w (Some (e_class value)) (Some value)
          = Raise failure) as Htexts.
  { unfold StackSentinelClient.error_texts. cbn.
    destruct (2 <? version_info_major w); by rewrite Htext. }
  destruct (dict_mem (KStr "machine") _); mrun; rewrite Htexts; mrun;
    cbn [fst snd]; by intros ->.
Qed.

(** X17 on a Python 2 host where [unicode] of the exception fails. *)
Lemma handle_exception_text_failure_witness :
  let decode_error :=
    Exn "UnicodeDecodeError" true [PStr "ascii"] None [] false in
  let python2 :=
    {| version_info_major := 2;
       sys_version := PStr "2.7.18";
       sys_version_info := PTuple [PInt 2; PInt 7; PInt 18];
       sys_path := PList []; sys_platform := PStr "linux2";
       socket := false; socket_gethostname := Samples.hostname_ok;
       os_environ := Ok (PDict []);
       platform := false;
       platform_uname := Samples.dist_ok; platform_node := Samples.dist_ok;
       platform_libc_ver := Samples.dist_ok;
       platform_version := Samples.dist_ok; platform_dist := Samples.dist_ok;
       repr := Samples.sample_repr; str := Samples.sample_str;
       unicode := λ _, Raise decode_error;
       urlopen := Samples.accepts;
       bytes_decode := λ _ body, Ok body;
       decode_utf8_replace := λ body, body;
       json_loads := λ text, Ok (PStr text);
       recursion_budget := 300;
       request_error := λ _, None;
       generator_stop := false |} in
  StackSentinelClient.handle_exception python2 (Samples.sample_client None)
    (Some Samples.boom) None None PNone false false Samples.empty_store
  = (Raise decode_error,
     Store [[(KStr "sys", StackSentinelClient._get_sys_info python2);
             (KStr "machine",
              PDict [(KStr "hostname", PStr "<socket module not available>");
                     (KStr "environ", PDict [])])]] []).
Proof.
  intros decode_error python2.
  assert (e_args Samples.boom ≠ []
          ∨ (∃ r, repr python2 Samples.boom = Ok r)) as Hmsg.
  { left. discriminate. }
  pose proof (handle_exception_text_failure python2
                (Samples.sample_client None) Samples.boom None PNone false
                false Samples.empty_store _ decode_error eq_refl Hmsg eq_refl)
    as [Hraise _].
  destruct (StackSentinelClient.handle_exception _ _ _ _ _ _ _ _ _)
    as [r s'] eqn:Hrun. cbn in Hraise. subst r.
  cbv in Hrun. by injection Hrun as <-.
Defined.
